(** * APV calculator: the valuation engine and the financial-data adapter

    A shallow embedding of [apv_calculator.py] (class [APVCalculator]) and
    the properties of its five methods.

    Numbers.  A Python [float] is modelled as an exact rational extended
    with the three special values of IEEE 754: not-a-number and the two
    infinities.  The values of finite results are exact: rounding and the
    sign of zero are not modelled.  What is modelled is what the code's
    control flow depends on: [None] against a number, [pd.isna], the
    comparison with zero, the [ZeroDivisionError] that Python's float
    division raises on a zero divisor, and the range of a double where
    leaving it changes the control flow: a power above the range raises
    [OverflowError], a power below it is 0.0 and then a zero divisor.

    Tables.  A statement of the provider (a pandas [DataFrame]) is a finite
    map from row labels to rows.  The provider itself, [yfinance], is a
    parameter of the adapter: any of its calls may raise. *)

From stdpp Require Import gmap strings.
From Stdlib Require Import QArith Qabs Qpower Lqa.

Local Open Scope Q_scope.

(** ** Python values *)

Module Py.

(** The exceptions of the modelled code.  The first four are raised by the
    operations of the code itself, with the text Python and pandas give
    them there: float division, [**], [.iloc[0]] and [.loc[label]].
    [ProviderError cause] is whatever exception a call of the provider
    raises, of any class, with its own text.  [Exception msg] is the base
    class instantiated with a message, as [raise Exception(f"...")] does. *)
Inductive exc : Type :=
| ZeroDivisionError
| OverflowError
| IndexError
| KeyError (label : string)
| ProviderError (cause : string)
| Exception (msg : string).

(** [str(e)] *)
Definition str_exc (e : exc) : string :=
  match e with
  | ZeroDivisionError => "float division by zero"
  | OverflowError => "(34, 'Numerical result out of range')"
  | IndexError => "single positional indexer is out-of-bounds"
  | KeyError label => "'" +:+ label +:+ "'"
  | ProviderError cause => cause
  | Exception msg => msg
  end.

(** A computation that returns or raises. *)
Inductive result (A : Type) : Type :=
| Ok (a : A)
| Raise (e : exc).
Arguments Ok {A} a.
Arguments Raise {A} e.

Definition bind {A B} (c : result A) (k : A -> result B) : result B :=
  match c with
  | Ok a => k a
  | Raise e => Raise e
  end.

(** [try: c except Exception as e: h e] *)
Definition try_except {A} (c : result A) (h : exc -> result A) : result A :=
  match c with
  | Ok a => Ok a
  | Raise e => h e
  end.

(** A float: a finite value, or one of the IEEE special values. *)
Inductive float : Type :=
| Fin (q : Q)
| PInf
| NInf
| NaN.

Definition is_zero (q : Q) : bool := Qeq_bool q 0.
Definition is_neg (q : Q) : bool := negb (Qle_bool 0 q).

(** [abs(x)] *)
Definition float_abs (x : float) : float :=
  match x with
  | Fin q => Fin (Qabs q)
  | PInf | NInf => PInf
  | NaN => NaN
  end.

(** [-x] *)
Definition float_neg (x : float) : float :=
  match x with
  | Fin q => Fin (- q)
  | PInf => NInf
  | NInf => PInf
  | NaN => NaN
  end.

(** [x + y] *)
Definition float_add (x y : float) : float :=
  match x, y with
  | NaN, _ | _, NaN => NaN
  | PInf, NInf | NInf, PInf => NaN
  | PInf, _ | _, PInf => PInf
  | NInf, _ | _, NInf => NInf
  | Fin a, Fin b => Fin (a + b)
  end.

(** [x - y] *)
Definition float_sub (x y : float) : float := float_add x (float_neg y).

(** an infinity of the sign of [+inf * q], not-a-number when [q] is zero *)
Definition inf_times (positive : bool) (q : Q) : float :=
  if is_zero q then NaN
  else if Bool.eqb positive (is_neg q) then NInf else PInf.

(** [x * y] *)
Definition float_mul (x y : float) : float :=
  match x, y with
  | NaN, _ | _, NaN => NaN
  | Fin a, Fin b => Fin (a * b)
  | PInf, Fin q | Fin q, PInf => inf_times true q
  | NInf, Fin q | Fin q, NInf => inf_times false q
  | PInf, PInf | NInf, NInf => PInf
  | PInf, NInf | NInf, PInf => NInf
  end.

(** [x / y]: Python tests the divisor against zero first and raises. *)
Definition float_div (x y : float) : result float :=
  match y with
  | Fin b =>
      if is_zero b then Raise ZeroDivisionError
      else match x with
           | Fin a => Ok (Fin (a / b))
           | PInf => Ok (if is_neg b then NInf else PInf)
           | NInf => Ok (if is_neg b then PInf else NInf)
           | NaN => Ok NaN
           end
  | NaN => Ok NaN
  | PInf | NInf =>
      match x with
      | Fin _ => Ok (Fin 0)
      | _ => Ok NaN
      end
  end.

(** The range of a double, on exact values and under rounding to nearest:
    a magnitude of at least [overflow_threshold] (half an ulp above the
    largest double) rounds to infinity, one of at most
    [underflow_threshold] (half the smallest subnormal) rounds to zero. *)
Definition overflow_threshold : Q := 2 ^ 1024 - 2 ^ 970.
Definition underflow_threshold : Q := / 2 ^ 1075.

Definition overflows (p : Q) : bool := Qle_bool overflow_threshold (Qabs p).
Definition underflows (p : Q) : bool := Qle_bool (Qabs p) underflow_threshold.

(** [x ** n] for an [int] exponent [n >= 0]: Python raises
    [OverflowError] when the power of a finite base is out of range; a
    power that underflows is 0.0, without an error. *)
Definition float_pow (x : float) (n : nat) : result float :=
  match n with
  | O => Ok (Fin 1)
  | _ =>
      match x with
      | Fin q =>
          if overflows (q ^ Z.of_nat n) then Raise OverflowError
          else if underflows (q ^ Z.of_nat n) then Ok (Fin 0)
          else Ok (Fin (q ^ Z.of_nat n))
      | PInf => Ok PInf
      | NInf => Ok (if Nat.even n then PInf else NInf)
      | NaN => Ok NaN
      end
  end.

(** [x == y] *)
Definition float_eqb (x y : float) : bool :=
  match x, y with
  | Fin a, Fin b => Qeq_bool a b
  | PInf, PInf | NInf, NInf => true
  | _, _ => false
  end.

(** [pd.isna(x)] on a float *)
Definition isna (x : float) : bool :=
  match x with
  | NaN => true
  | _ => false
  end.

End Py.

Import Py.

Declare Scope py_scope.
Notation "'let*' x ':=' c 'in' k" := (bind c (fun x => k))
  (at level 10, x name, c at level 100, k at level 200) : py_scope.
Local Open Scope py_scope.

(** ** The valuation engine *)

(** The first loop of [calculate_npv]: every entry that is neither [None]
    nor not-a-number is appended, as [abs(float(cf))], to
    [clean_cash_flows]. *)
Fixpoint clean_loop (cash_flows : list (option float)) (clean_cash_flows : list float)
  : list float :=
  match cash_flows with
  | [] => clean_cash_flows
  | cf :: rest =>
      match cf with
      | Some x =>
          if negb (isna x)
          then clean_loop rest (clean_cash_flows ++ [float_abs x])
          else clean_loop rest clean_cash_flows
      | None => clean_loop rest clean_cash_flows
      end
  end.

(** The second loop: [for t, cf in enumerate(clean_cash_flows)], with the
    counter [t] and the accumulator [npv] passed along. *)
Fixpoint npv_loop (discount_rate : float) (items : list float) (t : nat) (npv : float)
  : result float :=
  match items with
  | [] => Ok npv
  | cf :: rest =>
      let* power := float_pow (float_add (Fin 1) discount_rate) (t + 1) in
      let* term := float_div cf power in
      npv_loop discount_rate rest (S t) (float_add npv term)
  end.

Definition calculate_npv (cash_flows : list (option float)) (discount_rate : float)
  : result float :=
  let clean_cash_flows := clean_loop cash_flows [] in
  match clean_cash_flows with
  | [] => Ok (Fin 0)
  | _ => npv_loop discount_rate clean_cash_flows 0 (Fin 0)
  end.

Definition calculate_tax_shield (debt tax_rate cost_of_debt : option float)
  : result float :=
  match debt, tax_rate, cost_of_debt with
  | Some d, Some tr, Some c =>
      if float_eqb c (Fin 0) then Ok (float_mul d tr)
      else
        let* q := float_div (Fin 1) (float_add (Fin 1) c) in
        Ok (float_mul (float_mul d tr) (float_sub (Fin 1) q))
  | _, _, _ => Ok (Fin 0)
  end.

Definition calculate_apv (npv tax_shield : float) : result float :=
  Ok (float_add npv tax_shield).

(** The dictionary [sensitivity_analysis] returns, with its two keys. *)
Record SensitivityResult : Type := {
  variations : list float;
  values : list float
}.

Definition sensitivity_analysis (base_value : float) (vs : list float)
  : result SensitivityResult :=
  Ok {| variations := vs;
        values := map (fun v => float_mul base_value (float_add (Fin 1) v)) vs |}.

(** ** The financial-data adapter *)

(** A statement table of the provider, a pandas [DataFrame]: the row index
    maps a line-item label to the row's values, one per reporting period,
    the most recent first. *)
Abbreviation DataFrame := (gmap string (list float)).

(** [label in df.index] *)
Definition in_index (label : string) (df : DataFrame) : bool :=
  bool_decide (is_Some (df !! label)).

(** [df.loc[label]] *)
Definition loc (label : string) (df : DataFrame) : result (list float) :=
  match df !! label with
  | Some row => Ok row
  | None => Raise (KeyError label)
  end.

(** [row.iloc[0]] *)
Definition iloc0 (row : list float) : result float :=
  match row with
  | x :: _ => Ok x
  | [] => Raise IndexError
  end.

(** [np.zeros(n)] *)
Definition np_zeros (n : nat) : list float := repeat (Fin 0) n.

(** The object [yf.Ticker(ticker)] gives: three statements, each read
    through a property that queries the provider and may raise. *)
Record Ticker : Type := {
  tk_balance_sheet : result DataFrame;
  tk_financials : result DataFrame;
  tk_cashflow : result DataFrame
}.

(** The dictionary [get_financial_data] returns. *)
Record FinancialSnapshot : Type := {
  operating_cashflow : list float;
  total_debt : float;
  effective_tax_rate : float;
  balance_sheet : DataFrame;
  income_stmt : DataFrame;
  cashflow : DataFrame
}.

Definition debt_labels : list string :=
  ["Total Debt"; "Long Term Debt"; "Total Long Term Debt"]%string.

(** [for label in debt_labels: if label in balance_sheet.index: ...; break] *)
Fixpoint debt_loop (labels : list string) (bs : DataFrame) (total_debt : float)
  : result float :=
  match labels with
  | [] => Ok total_debt
  | label :: rest =>
      if in_index label bs
      then let* row := loc label bs in iloc0 row
      else debt_loop rest bs total_debt
  end.

(** The three extraction steps of the [try] block, each under the comment
    that introduces it in the source. *)

(** "Calcola i flussi di cassa operativi": the [.values] of the first row
    found, or four zeros. *)
Definition extract_operating_cashflow (cf : DataFrame) : result (list float) :=
  if in_index "Operating Cash Flow" cf
  then loc "Operating Cash Flow" cf
  else if in_index "Total Cash From Operating Activities" cf
  then loc "Total Cash From Operating Activities" cf
  else Ok (np_zeros 4).

(** "Ottieni il debito totale dall'ultimo anno" *)
Definition extract_total_debt (bs : DataFrame) : result float :=
  debt_loop debt_labels bs (Fin 0).

(** "Calcola l'aliquota fiscale effettiva dall'ultimo anno" *)
Definition extract_effective_tax_rate (inc : DataFrame) : result float :=
  if in_index "Income Tax Expense" inc && in_index "Pretax Income" inc
  then
    let* tax_expense := (let* row := loc "Income Tax Expense" inc in iloc0 row) in
    let* pretax_income := (let* row := loc "Pretax Income" inc in iloc0 row) in
    if negb (float_eqb pretax_income (Fin 0))
    then float_div tax_expense pretax_income
    else Ok (Fin (1 # 4))
  else Ok (Fin (1 # 4)).

Section Adapter.

(** The external provider, [yfinance]: the call [yf.Ticker(ticker)]. *)
Variable yf_Ticker : string -> result Ticker.

(** The body of the [try] block. *)
Definition fetch_and_extract (ticker : string) : result FinancialSnapshot :=
  let* stock := yf_Ticker ticker in
  let* bs := tk_balance_sheet stock in
  let* inc := tk_financials stock in
  let* cf := tk_cashflow stock in
  let* ocf := extract_operating_cashflow cf in
  let* debt := extract_total_debt bs in
  let* rate := extract_effective_tax_rate inc in
  Ok {| operating_cashflow := ocf;
        total_debt := debt;
        effective_tax_rate := rate;
        balance_sheet := bs;
        income_stmt := inc;
        cashflow := cf |}.

(** The message of the exception raised by the handler. *)
Definition retrieval_message (ticker : string) (e : exc) : string :=
  "Errore nel recupero dei dati per " +:+ ticker +:+ ": " +:+ str_exc e.

(** [get_financial_data]: whatever the body raises is caught and raised
    again as an [Exception] with the message above.  (The handler also
    prints the cause; the output stream is not modelled.) *)
Definition get_financial_data (ticker : string) : result FinancialSnapshot :=
  try_except (fetch_and_extract ticker)
             (fun e => Raise (Exception (retrieval_message ticker e))).

End Adapter.

(** ** The specification's vocabulary *)

(** The cleaned series in the specification's words: the entries that are
    neither missing nor not-a-number, each replaced by its absolute
    value. *)
Definition is_present (cf : option float) : bool :=
  match cf with
  | Some x => negb (isna x)
  | None => false
  end.

Definition magnitude (cf : option float) : float :=
  match cf with
  | Some x => float_abs x
  | None => NaN
  end.

Definition cleaned_series (cash_flows : list (option float)) : list float :=
  map magnitude (List.filter is_present cash_flows).

(** An entry that is missing, not-a-number or a real number. *)
Definition real_or_missing (cf : option float) : Prop :=
  match cf with
  | Some PInf | Some NInf => False
  | _ => True
  end.

(** The real numbers of the cleaned series. *)
Definition real_of (x : float) : Q :=
  match x with
  | Fin q => q
  | _ => 0
  end.

Definition cleaned_reals (cash_flows : list (option float)) : list Q :=
  map real_of (cleaned_series cash_flows).

(** [sum_upto n f] is f 0 + ... + f (n - 1). *)
Fixpoint sum_upto (n : nat) (f : nat -> Q) : Q :=
  match n with
  | O => 0
  | S k => sum_upto k f + f k
  end.

(** The sum over the series [cs] of [cs_t / (1 + r)^(t+1)]. *)
Definition discounted_sum (cs : list Q) (r : Q) : Q :=
  sum_upto (length cs) (fun t => nth t cs 0 / (1 + r) ^ Z.of_nat (t + 1)).

(** A finite non-negative real. *)
Definition finite_nonneg (x : float) : Prop :=
  match x with
  | Fin q => 0 <= q
  | _ => False
  end.

(** A non-negative value: a finite non-negative real or plus infinity. *)
Definition nonneg_value (x : float) : Prop :=
  match x with
  | Fin q => 0 <= q
  | PInf => True
  | _ => False
  end.

(** A value that is exactly zero. *)
Definition exactly_zero (x : float) : Prop :=
  match x with
  | Fin b => b == 0
  | _ => False
  end.

(** A power within the range of a double: it neither overflows nor
    rounds to zero (so it is not zero). *)
Definition in_double_range (p : Q) : Prop :=
  overflows p = false /\ underflows p = false.

(** The number of entries of the series that count. *)
Definition counted (cash_flows : list (option float)) : nat :=
  length (cleaned_series cash_flows).

(** A call that returns. *)
Definition never_fails {A : Type} (c : result A) : Prop := exists a, c = Ok a.

(** Reading the three statements in the order of the source. *)
Definition read_statements (stock : Ticker)
  : result (DataFrame * DataFrame * DataFrame) :=
  let* bs := tk_balance_sheet stock in
  let* inc := tk_financials stock in
  let* cf := tk_cashflow stock in
  Ok (bs, inc, cf).

(** A call of the provider raises, with the text [cause]: the call
    [yf.Ticker(ticker)] itself, or the first statement that cannot be
    read. *)
Definition provider_raises (call : result Ticker) (cause : string) : Prop :=
  call = Raise (ProviderError cause)
  \/ exists stock, call = Ok stock
                   /\ read_statements stock = Raise (ProviderError cause).

(** The provider serves nothing: three statements without a row.  This is
    how [yfinance] answers for an unknown ticker, or without a network: it
    reports the error on its own log and raises nothing. *)
Definition serves_nothing (call : result Ticker) : Prop :=
  exists stock, call = Ok stock /\ read_statements stock = Ok (∅, ∅, ∅).

(** The external fetch fails: in one way or the other. *)
Definition fetch_fails (call : result Ticker) : Prop :=
  (exists cause, provider_raises call cause) \/ serves_nothing call.

(** The external fetch gives the three statements. *)
Definition fetch_gives (call : result Ticker) (bs inc cf : DataFrame) : Prop :=
  exists stock, call = Ok stock /\ read_statements stock = Ok (bs, inc, cf).

(** A statement with at least one reporting period: no row is empty. *)
Definition has_period (df : DataFrame) : Prop :=
  map_Forall (fun _ row => row <> []) df.

(** A provider that cannot be reached. *)
Definition unreachable_provider (ticker : string) : result Ticker :=
  Ok {| tk_balance_sheet := Raise (ProviderError "HTTP Error 404");
        tk_financials := Raise (ProviderError "HTTP Error 404");
        tk_cashflow := Raise (ProviderError "HTTP Error 404") |}.

(** A provider that answers an unknown ticker as [yfinance] does: with
    three statements that have no row. *)
Definition silent_provider (ticker : string) : result Ticker :=
  Ok {| tk_balance_sheet := Ok ∅; tk_financials := Ok ∅; tk_cashflow := Ok ∅ |}.

(** A provider with an older naming of the rows: no "Operating Cash Flow"
    and no "Total Debt". *)
Definition sample_balance_sheet : DataFrame :=
  {[ "Long Term Debt"%string := [Fin 500; Fin 400] ]}.

Definition sample_income_stmt : DataFrame :=
  <[ "Income Tax Expense"%string := [Fin 30; Fin 20] ]>
    {[ "Pretax Income"%string := [Fin 120; Fin 100] ]}.

Definition sample_cashflow : DataFrame :=
  {[ "Total Cash From Operating Activities"%string := [Fin 10; Fin (-20)] ]}.

Definition sample_provider (ticker : string) : result Ticker :=
  Ok {| tk_balance_sheet := Ok sample_balance_sheet;
        tk_financials := Ok sample_income_stmt;
        tk_cashflow := Ok sample_cashflow |}.

(** The series with the entries selected by [mask] negated; [None] has no
    sign and stays. *)
Fixpoint negate_subset (mask : list bool) (cash_flows : list (option float))
  : list (option float) :=
  match mask, cash_flows with
  | true :: m, cf :: rest => option_map float_neg cf :: negate_subset m rest
  | false :: m, cf :: rest => cf :: negate_subset m rest
  | _, _ => cash_flows
  end.


(** The sum of a list of reals. *)
Definition Qsum (l : list Q) : Q := fold_right Qplus 0 l.

(** [x] is the real number [q]. *)
Definition real_value (x : float) (q : Q) : Prop :=
  match x with
  | Fin p => p == q
  | _ => False
  end.

(** The row the total debt is read from: the first of [debt_labels] that
    the balance sheet has. *)
Definition first_debt_row (bs : DataFrame) : option (list float) :=
  match bs !! "Total Debt" with
  | Some row => Some row
  | None =>
      match bs !! "Long Term Debt" with
      | Some row => Some row
      | None => bs !! "Total Long Term Debt"
      end
  end.

(** ** The calculation of the application

    [main] of [app.py] reads its inputs from the sidebar, or from the
    snapshot once one is loaded, and calls the engine.  The widgets are
    taken by what they return: [st.sidebar.number_input] gives a number
    within its [min_value] and [max_value]. *)

(** What the sidebar returns: one cash flow per year of "Numero di anni",
    and the four numbers, the rates in percent. *)
Record Sidebar : Type := {
  sb_cash_flows : list Q;
  sb_tax_pct : Q;
  sb_debt : Q;
  sb_discount_pct : Q;
  sb_cost_pct : Q
}.

(** The bounds of the widgets. *)
Definition sidebar_in_bounds (sb : Sidebar) : Prop :=
  (1 <= length (sb_cash_flows sb) <= 10)%nat
  /\ (0 <= sb_tax_pct sb /\ sb_tax_pct sb <= 100)
  /\ 0 <= sb_debt sb
  /\ (0 <= sb_discount_pct sb /\ sb_discount_pct sb <= 100)
  /\ (0 <= sb_cost_pct sb /\ sb_cost_pct sb <= 100).

(** What [main] computes and shows. *)
Record Valuation : Type := {
  v_npv : float;
  v_tax_shield : float;
  v_apv : float;
  v_sensitivity : SensitivityResult
}.

(** [variations = [-0.2, -0.1, 0, 0.1, 0.2]] *)
Definition main_variations : list float :=
  [Fin (-(2 # 10)); Fin (-(1 # 10)); Fin 0; Fin (1 # 10); Fin (2 # 10)].

(** The inputs of [main] and its calls of the engine, in the order of the
    source; [financial_data] is [st.session_state.financial_data]. *)
Definition main_calculation (financial_data : option FinancialSnapshot) (sb : Sidebar)
  : result Valuation :=
  let cash_flows :=
    match financial_data with
    | Some fd => firstn 5 (operating_cashflow fd)
    | None => map Fin (sb_cash_flows sb)
    end in
  let tax_rate := Fin (sb_tax_pct sb / 100) in
  let debt :=
    match financial_data with
    | Some fd => total_debt fd
    | None => Fin (sb_debt sb)
    end in
  let discount_rate := Fin (sb_discount_pct sb / 100) in
  let cost_of_debt := Fin (sb_cost_pct sb / 100) in
  let* npv := calculate_npv (map Some cash_flows) discount_rate in
  let* tax_shield := calculate_tax_shield (Some debt) (Some tax_rate) (Some cost_of_debt) in
  let* apv := calculate_apv npv tax_shield in
  let* sensitivity := sensitivity_analysis apv main_variations in
  Ok {| v_npv := npv; v_tax_shield := tax_shield; v_apv := apv;
        v_sensitivity := sensitivity |}.

Example npv_one_flow :
  exists s, calculate_npv [Some (Fin 1000)] (Fin (1 # 10)) = Ok (Fin s) /\ s == 10000 # 11.
Proof. eexists; split; [reflexivity | reflexivity]. Qed.

(** ** Cleaning *)

Lemma float_abs_neg (x : float) : float_abs (float_neg x) = float_abs x.
Proof.
  destruct x as [[n d]| | |]; cbn; try done.
  unfold Qabs, Qopp. cbn. by rewrite Z.abs_opp.
Qed.

Lemma isna_neg (x : float) : isna (float_neg x) = isna x.
Proof. by destruct x. Qed.

Lemma is_present_neg (cf : option float) :
  is_present (option_map float_neg cf) = is_present cf.
Proof. destruct cf as [x|]; simpl; [rewrite isna_neg|]; reflexivity. Qed.

Lemma magnitude_neg (cf : option float) :
  magnitude (option_map float_neg cf) = magnitude cf.
Proof. destruct cf as [x|]; [apply float_abs_neg | reflexivity]. Qed.

Lemma cleaned_series_cons (cf : option float) (rest : list (option float)) :
  cleaned_series (cf :: rest) =
  if is_present cf then magnitude cf :: cleaned_series rest else cleaned_series rest.
Proof. unfold cleaned_series. simpl List.filter. by destruct (is_present cf). Qed.

Lemma clean_loop_app (cash_flows : list (option float)) (acc : list float) :
  clean_loop cash_flows acc = acc ++ cleaned_series cash_flows.
Proof.
  revert acc. induction cash_flows as [|cf rest IH]; intros acc.
  - cbn. by rewrite app_nil_r.
  - rewrite cleaned_series_cons. destruct cf as [x|]; simpl; [|apply IH].
    destruct (isna x); simpl; rewrite IH; [done|].
    by rewrite <- app_assoc.
Qed.

Lemma clean_loop_cleaned (cash_flows : list (option float)) :
  clean_loop cash_flows [] = cleaned_series cash_flows.
Proof. apply clean_loop_app. Qed.

Lemma cleaned_series_negate (mask : list bool) (cash_flows : list (option float)) :
  cleaned_series (negate_subset mask cash_flows) = cleaned_series cash_flows.
Proof.
  revert mask. induction cash_flows as [|cf rest IH]; intros [|[] m]; try done.
  - simpl negate_subset.
    by rewrite !cleaned_series_cons, is_present_neg, magnitude_neg, IH.
  - simpl negate_subset. by rewrite !cleaned_series_cons, IH.
Qed.

Lemma float_abs_nonneg (x : float) : isna x = false -> nonneg_value (float_abs x).
Proof. destruct x; cbn; try done. intros _. apply Qabs_nonneg. Qed.

Lemma cleaned_series_nonneg (cash_flows : list (option float)) :
  Forall nonneg_value (cleaned_series cash_flows).
Proof.
  induction cash_flows as [|cf rest IH]; [constructor|].
  rewrite cleaned_series_cons. destruct cf as [x|]; simpl; [|done].
  destruct (isna x) eqn:E; simpl; [done|].
  constructor; [by apply float_abs_nonneg | done].
Qed.

(** ** Finite sums *)

Lemma sum_upto_ext (n : nat) (f g : nat -> Q) :
  (forall i, (i < n)%nat -> f i == g i) -> sum_upto n f == sum_upto n g.
Proof.
  induction n as [|n IH]; intros H; cbn [sum_upto]; [reflexivity|].
  rewrite IH by (intros i Hi; apply H; lia).
  rewrite (H n) by lia. reflexivity.
Qed.

Lemma sum_upto_shift (n : nat) (f : nat -> Q) :
  sum_upto (S n) f == f O + sum_upto n (fun i => f (S i)).
Proof.
  induction n as [|n IH].
  - cbn [sum_upto]. ring.
  - change (sum_upto (S (S n)) f) with (sum_upto (S n) f + f (S n)).
    rewrite IH. cbn [sum_upto]. ring.
Qed.


(** ** The range of a double *)

Lemma is_zero_true (q : Q) : is_zero q = true <-> q == 0.
Proof. apply Qeq_bool_iff. Qed.

Lemma is_zero_false (q : Q) : is_zero q = false <-> ~ q == 0.
Proof.
  split; [apply Qeq_bool_neq|]. intros H.
  destruct (is_zero q) eqn:E; [|done]. by apply is_zero_true in E.
Qed.

Lemma threshold_order :
  0 < underflow_threshold /\ underflow_threshold < 1 /\ 1 < overflow_threshold.
Proof. repeat split; vm_compute; reflexivity. Qed.

Lemma Qle_bool_false (x y : Q) : Qle_bool x y = false <-> y < x.
Proof.
  split.
  - intros H. apply Qnot_le_lt. intros Hle. apply Qle_bool_iff in Hle. congruence.
  - intros H. destruct (Qle_bool x y) eqn:E; [|done].
    apply Qle_bool_iff in E. lra.
Qed.

Lemma overflows_true (p : Q) : overflows p = true <-> overflow_threshold <= Qabs p.
Proof. apply Qle_bool_iff. Qed.

Lemma overflows_false (p : Q) : overflows p = false <-> Qabs p < overflow_threshold.
Proof. apply Qle_bool_false. Qed.

Lemma underflows_true (p : Q) : underflows p = true <-> Qabs p <= underflow_threshold.
Proof. apply Qle_bool_iff. Qed.

Lemma underflows_false (p : Q) : underflows p = false <-> underflow_threshold < Qabs p.
Proof. apply Qle_bool_false. Qed.

Lemma in_double_range_iff (p : Q) :
  in_double_range p <-> underflow_threshold < Qabs p /\ Qabs p < overflow_threshold.
Proof. unfold in_double_range. rewrite overflows_false, underflows_false. tauto. Qed.

Lemma in_double_range_proper (p q : Q) :
  p == q -> in_double_range p -> in_double_range q.
Proof. intros E. rewrite !in_double_range_iff. by rewrite E. Qed.

Lemma in_double_range_nonzero (p : Q) : in_double_range p -> ~ p == 0.
Proof.
  rewrite in_double_range_iff. intros [H _] E. rewrite E in H.
  destruct threshold_order as (H0 & _). change (Qabs 0) with 0 in H. lra.
Qed.

Lemma in_double_range_one : in_double_range 1.
Proof.
  apply in_double_range_iff. destruct threshold_order as (_ & H1 & H2).
  change (Qabs 1) with 1. by split.
Qed.


(** The magnitudes of the powers of [b] go one way: up when [b] is at
    least 1 in magnitude, down when it is at most 1. *)
Lemma Qabs_power_succ (b : Q) (k : nat) :
  Qabs (b ^ Z.of_nat (S k)) == Qabs b * Qabs (b ^ Z.of_nat k).
Proof.
  rewrite Nat2Z.inj_succ. unfold Z.succ.
  rewrite (Z.add_comm (Z.of_nat k) 1), Qpower_plus' by lia.
  by rewrite Qpower_1_r, Qabs_Qmult.
Qed.

Lemma abs_power_small (b : Q) (k : nat) : Qabs b <= 1 -> Qabs (b ^ Z.of_nat k) <= 1.
Proof.
  intros Hb. induction k as [|k IH]; [by vm_compute|].
  rewrite Qabs_power_succ. pose proof (Qabs_nonneg b). pose proof (Qabs_nonneg (b ^ Z.of_nat k)).
  nra.
Qed.

Lemma abs_power_large (b : Q) (k : nat) : 1 <= Qabs b -> 1 <= Qabs (b ^ Z.of_nat k).
Proof.
  intros Hb. induction k as [|k IH]; [by vm_compute|].
  rewrite Qabs_power_succ. nra.
Qed.

Lemma abs_power_up (b : Q) (k m : nat) :
  1 <= Qabs b -> (k <= m)%nat -> Qabs (b ^ Z.of_nat k) <= Qabs (b ^ Z.of_nat m).
Proof.
  intros Hb. induction 1 as [|m _ IH]; [apply Qle_refl|].
  rewrite Qabs_power_succ. pose proof (Qabs_nonneg (b ^ Z.of_nat m)). nra.
Qed.

Lemma abs_power_down (b : Q) (k m : nat) :
  Qabs b <= 1 -> (k <= m)%nat -> Qabs (b ^ Z.of_nat m) <= Qabs (b ^ Z.of_nat k).
Proof.
  intros Hb. induction 1 as [|m _ IH]; [apply Qle_refl|].
  rewrite Qabs_power_succ. pose proof (Qabs_nonneg b).
  pose proof (Qabs_nonneg (b ^ Z.of_nat m)). nra.
Qed.

Lemma overflows_later (b : Q) (k m : nat) :
  (k <= m)%nat -> overflows (b ^ Z.of_nat k) = true -> overflows (b ^ Z.of_nat m) = true.
Proof.
  rewrite !overflows_true. intros Hkm Hk. destruct threshold_order as (_ & _ & H1).
  destruct (Qlt_le_dec (Qabs b) 1) as [Hb|Hb].
  - pose proof (abs_power_small b k). lra.
  - pose proof (abs_power_up b k m Hb Hkm). lra.
Qed.

Lemma underflows_later (b : Q) (k m : nat) :
  (k <= m)%nat -> underflows (b ^ Z.of_nat k) = true -> underflows (b ^ Z.of_nat m) = true.
Proof.
  rewrite !underflows_true. intros Hkm Hk. destruct threshold_order as (_ & H1 & _).
  destruct (Qlt_le_dec 1 (Qabs b)) as [Hb|Hb].
  - pose proof (abs_power_large b k). lra.
  - pose proof (abs_power_down b k m Hb Hkm). lra.
Qed.

Lemma in_double_range_earlier (b : Q) (k m : nat) :
  (k <= m)%nat -> in_double_range (b ^ Z.of_nat m) -> in_double_range (b ^ Z.of_nat k).
Proof.
  intros Hkm [Ho Hu]. split.
  - destruct (overflows (b ^ Z.of_nat k)) eqn:E; [|done].
    apply (overflows_later b k m Hkm) in E. congruence.
  - destruct (underflows (b ^ Z.of_nat k)) eqn:E; [|done].
    apply (underflows_later b k m Hkm) in E. congruence.
Qed.

(** ** The discounting loop *)



Lemma float_pow_in_range (q : Q) (n : nat) :
  in_double_range (q ^ Z.of_nat (S n)) ->
  float_pow (Fin q) (S n) = Ok (Fin (q ^ Z.of_nat (S n))).
Proof. intros [Ho Hu]. unfold float_pow. by rewrite Ho, Hu. Qed.

Lemma npv_loop_cons discount_rate cf rest t npv :
  npv_loop discount_rate (cf :: rest) t npv =
  let* power := float_pow (float_add (Fin 1) discount_rate) (t + 1) in
  let* term := float_div cf power in
  npv_loop discount_rate rest (S t) (float_add npv term).
Proof. reflexivity. Qed.

Lemma float_div_zero (x : float) : float_div x (Fin 0) = Raise ZeroDivisionError.
Proof. reflexivity. Qed.

Lemma float_div_in_range (x : float) (p : Q) :
  in_double_range p -> never_fails (float_div x (Fin p)).
Proof.
  intros Hp. apply in_double_range_nonzero, is_zero_false in Hp.
  unfold float_div. rewrite Hp. destruct x; by eexists.
Qed.



Lemma npv_loop_step_in_range (r : Q) cf rest t npv :
  in_double_range ((1 + r) ^ Z.of_nat (S t)) ->
  npv_loop (Fin r) (cf :: rest) t npv =
  let* term := float_div cf (Fin ((1 + r) ^ Z.of_nat (S t))) in
  npv_loop (Fin r) rest (S t) (float_add npv term).
Proof.
  intros H. rewrite npv_loop_cons, Nat.add_1_r. cbn [float_add].
  by rewrite float_pow_in_range.
Qed.

Lemma last_power (t : nat) (x : float) (rest : list float) :
  (t + length (x :: rest) = S t + length rest)%nat.
Proof. simpl. lia. Qed.

Lemma npv_loop_in_range (r : Q) (items : list float) (t : nat) (npv : float) :
  in_double_range ((1 + r) ^ Z.of_nat (t + length items)) ->
  never_fails (npv_loop (Fin r) items t npv).
Proof.
  revert t npv. induction items as [|x rest IH]; intros t npv Hr; [by eexists|].
  rewrite last_power in Hr.
  rewrite npv_loop_step_in_range
    by (apply (in_double_range_earlier _ (S t) (S t + length rest)); [lia | exact Hr]).
  destruct (float_div_in_range x ((1 + r) ^ Z.of_nat (S t))) as [v ->];
    [apply (in_double_range_earlier _ (S t) (S t + length rest)); [lia | exact Hr]|].
  by apply IH.
Qed.




(** On real numbers the loop adds, to the accumulator, the terms
    [c_i / (1 + r)^(t + i + 1)]. *)
Lemma npv_loop_reals (r : Q) (cs : list Q) (t : nat) (acc : Q) :
  in_double_range ((1 + r) ^ Z.of_nat (t + length cs)) ->
  exists s, npv_loop (Fin r) (map Fin cs) t (Fin acc) = Ok (Fin s) /\
    s == acc + sum_upto (length cs)
                 (fun i => nth i cs 0 / (1 + r) ^ Z.of_nat (t + i + 1)).
Proof.
  revert t acc. induction cs as [|c cs IH]; intros t acc Hr.
  - exists acc. split; [done|]. cbn [length sum_upto]. ring.
  - simpl map. change (length (c :: cs)) with (S (length cs)) in *.
    assert (Hr' : in_double_range ((1 + r) ^ Z.of_nat (S t + length cs)))
      by (by replace (S t + length cs)%nat with (t + S (length cs))%nat by lia).
    assert (H1 : in_double_range ((1 + r) ^ Z.of_nat (S t)))
      by (apply (in_double_range_earlier _ (S t) (S t + length cs)); [lia | exact Hr']).
    rewrite npv_loop_step_in_range by exact H1. unfold float_div.
    assert (Hz : is_zero ((1 + r) ^ Z.of_nat (S t)) = false)
      by (by apply is_zero_false, in_double_range_nonzero).
    rewrite Hz. cbn [bind float_add].
    destruct (IH (S t) (acc + c / (1 + r) ^ Z.of_nat (S t)) Hr') as (s & Hs & Es).
    exists s. split; [exact Hs|]. rewrite Es.
    rewrite sum_upto_shift. simpl nth.
    rewrite (sum_upto_ext (length cs)
               (fun i => nth i cs 0 / (1 + r) ^ Z.of_nat (t + S i + 1))
               (fun i => nth i cs 0 / (1 + r) ^ Z.of_nat (S t + i + 1))).
    + replace (t + 0 + 1)%nat with (S t) by lia. ring.
    + intros i _. replace (t + S i + 1)%nat with (S t + i + 1)%nat by lia.
      reflexivity.
Qed.

Lemma cleaned_series_reals (cash_flows : list (option float)) :
  Forall real_or_missing cash_flows ->
  cleaned_series cash_flows = map Fin (cleaned_reals cash_flows).
Proof.
  unfold cleaned_reals.
  induction 1 as [|cf rest Hcf _ IH]; [done|].
  rewrite cleaned_series_cons.
  destruct cf as [[q| | |]|]; simpl in *; try done.
  by rewrite IH at 1.
Qed.


Lemma calculate_npv_cleaned (cash_flows : list (option float)) (discount_rate : float) :
  calculate_npv cash_flows discount_rate =
  match cleaned_series cash_flows with
  | [] => Ok (Fin 0)
  | items => npv_loop discount_rate items 0 (Fin 0)
  end.
Proof.
  unfold calculate_npv. rewrite clean_loop_cleaned.
  by destruct (cleaned_series cash_flows).
Qed.

Lemma counted_reals (cash_flows : list (option float)) :
  length (cleaned_reals cash_flows) = counted cash_flows.
Proof. unfold cleaned_reals, counted. apply length_map. Qed.

Lemma calculate_npv_in_range (cash_flows : list (option float)) (r : Q) :
  in_double_range ((1 + r) ^ Z.of_nat (counted cash_flows)) ->
  never_fails (calculate_npv cash_flows (Fin r)).
Proof.
  intros Hr. rewrite calculate_npv_cleaned. unfold counted in Hr.
  destruct (cleaned_series cash_flows) as [|x items] eqn:E; [by eexists|].
  by apply npv_loop_in_range.
Qed.




Lemma calculate_npv_reals (cash_flows : list (option float)) (r : Q) :
  Forall real_or_missing cash_flows ->
  in_double_range ((1 + r) ^ Z.of_nat (counted cash_flows)) ->
  exists s, calculate_npv cash_flows (Fin r) = Ok (Fin s) /\
            s == discounted_sum (cleaned_reals cash_flows) r.
Proof.
  intros Hcf Hr. rewrite <- counted_reals in Hr.
  rewrite calculate_npv_cleaned, (cleaned_series_reals _ Hcf).
  destruct (npv_loop_reals r (cleaned_reals cash_flows) 0 0 Hr) as (s & Hs & Es).
  destruct (cleaned_reals cash_flows) as [|c cs] eqn:E.
  - exists 0. split; [done|]. reflexivity.
  - exists s. split; [exact Hs|]. rewrite Es. unfold discounted_sum.
    rewrite Qplus_0_l. apply sum_upto_ext. intros i _. reflexivity.
Qed.


(** ** Net present value *)





(** A series of missing and not-a-number entries only is worth 0.0. *)
Example npv_nothing_present :
  calculate_npv [None; Some NaN; None] (Fin (-1)) = Ok (Fin 0).
Proof. reflexivity. Qed.

(** C5: negating any subset of the entries of the series leaves the result
    of [calculate_npv] unchanged, at every discount rate. *)
Theorem calculate_npv_sign_invariant
    (mask : list bool) (cash_flows : list (option float)) (discount_rate : float) :
  calculate_npv (negate_subset mask cash_flows) discount_rate
  = calculate_npv cash_flows discount_rate.
Proof. by rewrite !calculate_npv_cleaned, cleaned_series_negate. Qed.

Example npv_negated_entries :
  negate_subset [true; false; true] [Some (Fin 100); Some (Fin (-20)); Some (Fin (-3))]
  = [Some (Fin (-100)); Some (Fin (-20)); Some (Fin 3)].
Proof. reflexivity. Qed.




(** ** The cleaned series *)

(** An infinite entry is neither [None] nor not-a-number: it is kept, as
    plus infinity. *)
Lemma cleaning_keeps_infinity :
  ~ (clean_loop [Some (Fin 100); Some NInf] [] = []
     \/ Forall finite_nonneg (clean_loop [Some (Fin 100); Some NInf] [])).
Proof.
  intros [H|H]; [discriminate H|].
  inversion H as [|x l _ Hrest]; subst.
  inversion Hrest as [|y l' Hinf _]; subst. exact Hinf.
Qed.

Lemma cleaned_series_infinite (cash_flows : list (option float)) :
  In PInf (cleaned_series cash_flows)
  <-> In (Some PInf) cash_flows \/ In (Some NInf) cash_flows.
Proof.
  induction cash_flows as [|cf rest IH]; [simpl; tauto|].
  rewrite cleaned_series_cons.
  destruct cf as [[q| | |]|]; simpl; rewrite ?IH;
    intuition (try discriminate; auto).
Qed.

Lemma nonneg_reals_finite (cs : list Q) :
  Forall nonneg_value (map Fin cs) -> Forall finite_nonneg (map Fin cs).
Proof.
  induction cs as [|c cs IH]; intros H; [constructor|].
  inversion H; subst. constructor; [done | by apply IH].
Qed.

(** C3, as the code has it: after the cleaning step either the cleaned
    series is empty and [calculate_npv] returns zero, or it is not empty
    and every element is a non-negative value that is not not-a-number: a
    finite non-negative real or plus infinity.  Plus infinity is in the
    cleaned series exactly when the input has an infinite entry; when it
    has none, every element is a finite non-negative real. *)
Theorem cleaned_series_invariant (cash_flows : list (option float)) :
  ((clean_loop cash_flows [] = []
    /\ forall discount_rate, calculate_npv cash_flows discount_rate = Ok (Fin 0))
   \/ (clean_loop cash_flows [] <> []
       /\ Forall nonneg_value (clean_loop cash_flows [])))
  /\ (In PInf (clean_loop cash_flows [])
      <-> In (Some PInf) cash_flows \/ In (Some NInf) cash_flows)
  /\ (Forall real_or_missing cash_flows ->
      Forall finite_nonneg (clean_loop cash_flows [])).
Proof.
  rewrite clean_loop_cleaned. split; [|split].
  - destruct (cleaned_series cash_flows) as [|x l] eqn:E.
    + left. split; [done|]. intros d. by rewrite calculate_npv_cleaned, E.
    + right. split; [done|]. rewrite <- E. apply cleaned_series_nonneg.
  - apply cleaned_series_infinite.
  - intros H. pose proof (cleaned_series_nonneg cash_flows) as Hn.
    rewrite (cleaned_series_reals _ H) in *. by apply nonneg_reals_finite.
Qed.

Lemma cleaned_series_invariant_witness :
  Forall real_or_missing [Some (Fin (-7)); None; Some NaN; Some (Fin 0)]
  /\ Forall finite_nonneg (clean_loop [Some (Fin (-7)); None; Some NaN; Some (Fin 0)] []).
Proof.
  assert (H : Forall real_or_missing [Some (Fin (-7)); None; Some NaN; Some (Fin 0)])
    by (repeat constructor).
  split; [exact H|].
  exact (proj2 (proj2 (cleaned_series_invariant _)) H).
Defined.

(** ** Sensitivity analysis *)

(** C6: [sensitivity_analysis] returns the deltas it was given under
    'variations' and, under 'values', [base_value * (1 + v)] for each delta
    [v] in the order of the input: same length, same positions, nothing
    filtered. *)
Theorem sensitivity_analysis_values (base_value : float) (vs : list float) :
  exists res,
    sensitivity_analysis base_value vs = Ok res
    /\ variations res = vs
    /\ values res = map (fun v => float_mul base_value (float_add (Fin 1) v)) vs
    /\ length (values res) = length vs
    /\ (forall i, nth_error (values res) i
                  = option_map (fun v => float_mul base_value (float_add (Fin 1) v))
                               (nth_error vs i))
    /\ (forall (b : Q) (ds : list Q),
          base_value = Fin b -> vs = map Fin ds ->
          values res = map (fun d => Fin (b * (1 + d))) ds).
Proof.
  eexists. split; [reflexivity|]. cbn [variations values].
  split; [done|]. split; [done|]. split; [apply length_map|].
  split; [intros i; apply nth_error_map|].
  intros b ds -> ->. rewrite map_map. reflexivity.
Qed.

Lemma sensitivity_analysis_values_witness :
  exists res,
    sensitivity_analysis (Fin 100) (map Fin [-(1 # 5); 0; 1 # 10]) = Ok res
    /\ values res = map (fun d => Fin (100 * (1 + d))) [-(1 # 5); 0; 1 # 10].
Proof.
  destruct (sensitivity_analysis_values (Fin 100) (map Fin [-(1 # 5); 0; 1 # 10]))
    as (res & Hres & _ & _ & _ & _ & Hreal).
  exists res. split; [exact Hres|].
  exact (Hreal 100 [-(1 # 5); 0; 1 # 10] eq_refl eq_refl).
Defined.

Example sensitivity_sweep :
  exists res,
    sensitivity_analysis (Fin 100) [Fin (-(2 # 10)); Fin (-(1 # 10)); Fin 0; Fin (1 # 10); Fin (2 # 10)]
    = Ok res
    /\ Forall2 (fun x y => exists q, x = Fin q /\ q == y) (values res) [80; 90; 100; 110; 120].
Proof.
  eexists. split; [reflexivity|].
  repeat constructor; eexists; split; reflexivity.
Qed.

(** ** Tax shield *)

Lemma calculate_tax_shield_absent (debt tax_rate cost_of_debt : option float) :
  debt = None \/ tax_rate = None \/ cost_of_debt = None ->
  calculate_tax_shield debt tax_rate cost_of_debt = Ok (Fin 0).
Proof.
  destruct debt, tax_rate, cost_of_debt; try reflexivity.
  intros [H|[H|H]]; discriminate H.
Qed.

Lemma calculate_tax_shield_zero_cost (d tr : float) (c : Q) :
  c == 0 ->
  calculate_tax_shield (Some d) (Some tr) (Some (Fin c)) = Ok (float_mul d tr).
Proof.
  intros Hc. unfold calculate_tax_shield, float_eqb.
  apply Qeq_bool_iff in Hc. by rewrite Hc.
Qed.

Lemma calculate_tax_shield_minus_one (d tr : float) (c : Q) :
  1 + c == 0 ->
  calculate_tax_shield (Some d) (Some tr) (Some (Fin c)) = Raise ZeroDivisionError.
Proof.
  intros Hc. unfold calculate_tax_shield, float_eqb.
  assert (Hnz : Qeq_bool c 0 = false).
  { destruct (Qeq_bool c 0) eqn:E; [|done]. apply Qeq_bool_iff in E. lra. }
  rewrite Hnz. cbn [float_add float_div].
  apply is_zero_true in Hc. by rewrite Hc.
Qed.

Lemma calculate_tax_shield_real (d tr c : Q) :
  ~ c == 0 -> ~ 1 + c == 0 ->
  exists v, calculate_tax_shield (Some (Fin d)) (Some (Fin tr)) (Some (Fin c)) = Ok (Fin v)
            /\ v == d * tr * (1 - 1 / (1 + c)).
Proof.
  intros Hc H1c. unfold calculate_tax_shield, float_eqb.
  assert (Hnz : Qeq_bool c 0 = false).
  { destruct (Qeq_bool c 0) eqn:E; [|done]. by apply Qeq_bool_iff in E. }
  rewrite Hnz. cbn [float_add float_div].
  apply is_zero_false in H1c. rewrite H1c.
  eexists. split; [reflexivity|]. reflexivity.
Qed.

(** With a cost of debt of exactly -1 the formula divides by zero: nothing
    is returned. *)
Lemma tax_shield_minus_one_raises :
  calculate_tax_shield (Some (Fin 1000)) (Some (Fin (1 # 4))) (Some (Fin (-1)))
  = Raise ZeroDivisionError
  /\ ~ exists v,
         calculate_tax_shield (Some (Fin 1000)) (Some (Fin (1 # 4))) (Some (Fin (-1)))
         = Ok (Fin v)
         /\ v == 1000 * (1 # 4) * (1 - 1 / (1 + -1)).
Proof. split; [reflexivity|]. intros (v & H & _). discriminate H. Qed.

(** C2, as the code has it: with an argument absent [calculate_tax_shield]
    returns 0.0; with a cost of debt of exactly zero it returns
    [debt * tax_rate]; with a cost of debt that is neither zero nor -1 it
    returns [debt * tax_rate * (1 - 1/(1 + cost_of_debt))], whatever the
    signs and sizes of the three reals; with a cost of debt of exactly -1
    it raises [ZeroDivisionError]. *)
Theorem calculate_tax_shield_formula :
  (forall debt tax_rate cost_of_debt : option float,
     debt = None \/ tax_rate = None \/ cost_of_debt = None ->
     calculate_tax_shield debt tax_rate cost_of_debt = Ok (Fin 0))
  /\ (forall d tr c : Q,
        c == 0 ->
        calculate_tax_shield (Some (Fin d)) (Some (Fin tr)) (Some (Fin c))
        = Ok (Fin (d * tr)))
  /\ (forall d tr c : Q,
        ~ c == 0 -> ~ 1 + c == 0 ->
        exists v,
          calculate_tax_shield (Some (Fin d)) (Some (Fin tr)) (Some (Fin c)) = Ok (Fin v)
          /\ v == d * tr * (1 - 1 / (1 + c)))
  /\ (forall d tr c : Q,
        1 + c == 0 ->
        calculate_tax_shield (Some (Fin d)) (Some (Fin tr)) (Some (Fin c))
        = Raise ZeroDivisionError).
Proof.
  split; [exact calculate_tax_shield_absent|].
  split; [intros d tr c Hc; by apply calculate_tax_shield_zero_cost|].
  split; [exact calculate_tax_shield_real|].
  intros d tr c Hc. by apply calculate_tax_shield_minus_one.
Qed.

Lemma calculate_tax_shield_formula_witness :
  (~ (1 # 20) == 0 /\ ~ 1 + (1 # 20) == 0)
  /\ exists v,
       calculate_tax_shield (Some (Fin 1000)) (Some (Fin (1 # 4))) (Some (Fin (1 # 20)))
       = Ok (Fin v)
       /\ v == 1000 * (1 # 4) * (1 - 1 / (1 + (1 # 20))).
Proof.
  assert (H0 : ~ (1 # 20) == 0) by (intros E; discriminate E).
  assert (H1 : ~ 1 + (1 # 20) == 0) by (intros E; discriminate E).
  split; [by split|].
  exact (proj1 (proj2 (proj2 calculate_tax_shield_formula)) 1000 (1 # 4) (1 # 20) H0 H1).
Defined.

Example tax_shield_zero_cost :
  calculate_tax_shield (Some (Fin 1000)) (Some (Fin (1 # 4))) (Some (Fin 0))
  = Ok (Fin (1000 * (1 # 4))).
Proof. reflexivity. Qed.

Example tax_shield_five_percent :
  exists v,
    calculate_tax_shield (Some (Fin 1000)) (Some (Fin (1 # 4))) (Some (Fin (5 # 100)))
    = Ok (Fin v) /\ v == 250 # 21.
Proof. eexists. split; reflexivity. Qed.

(** ** Where the engine raises *)


Lemma calculate_tax_shield_raises (debt tax_rate cost_of_debt : option float) (e : exc) :
  calculate_tax_shield debt tax_rate cost_of_debt = Raise e
  <-> e = ZeroDivisionError
      /\ is_Some debt /\ is_Some tax_rate
      /\ exists q, cost_of_debt = Some (Fin q) /\ 1 + q == 0.
Proof.
  split.
  - destruct debt as [d|], tax_rate as [tr|], cost_of_debt as [c|]; try discriminate.
    unfold calculate_tax_shield.
    destruct (float_eqb c (Fin 0)); [discriminate|].
    destruct c as [q| | |]; try discriminate.
    cbn [float_add float_div]. destruct (is_zero (1 + q)) eqn:E; [|discriminate].
    intros [= <-]. apply is_zero_true in E. eauto 10.
  - intros (-> & [d ->] & [tr ->] & q & -> & Hq).
    by apply calculate_tax_shield_minus_one.
Qed.




(** ** Reading a statement *)

Lemma in_index_Some (label : string) (df : DataFrame) (row : list float) :
  df !! label = Some row -> in_index label df = true /\ loc label df = Ok row.
Proof.
  intros H. unfold in_index, loc. rewrite H. split; [|done].
  by apply bool_decide_eq_true.
Qed.

Lemma in_index_None (label : string) (df : DataFrame) :
  df !! label = None -> in_index label df = false.
Proof.
  intros H. unfold in_index. rewrite H. apply bool_decide_eq_false.
  by intros [x Hx].
Qed.

Lemma first_period (label : string) (df : DataFrame) (row : list float) :
  has_period df -> df !! label = Some row -> exists x rest, row = x :: rest.
Proof.
  intros Hp H. specialize (Hp label row H). simpl in Hp.
  destruct row as [|x rest]; [done | eauto].
Qed.

Lemma debt_loop_returns (labels : list string) (bs : DataFrame) (total_debt : float) :
  has_period bs -> never_fails (debt_loop labels bs total_debt).
Proof.
  intros Hp. induction labels as [|label rest IH]; [by eexists|].
  cbn [debt_loop]. destruct (bs !! label) as [row|] eqn:E.
  - destruct (in_index_Some _ _ _ E) as [-> ->].
    destruct (first_period _ _ _ Hp E) as (x & l & ->). by eexists.
  - by rewrite (in_index_None _ _ E).
Qed.

Lemma extract_operating_cashflow_spec (cf : DataFrame) :
  extract_operating_cashflow cf
  = Ok (match cf !! "Operating Cash Flow" with
        | Some row => row
        | None =>
            match cf !! "Total Cash From Operating Activities" with
            | Some row => row
            | None => [Fin 0; Fin 0; Fin 0; Fin 0]
            end
        end).
Proof.
  unfold extract_operating_cashflow.
  destruct (cf !! "Operating Cash Flow") as [row|] eqn:E1.
  - by destruct (in_index_Some _ _ _ E1) as [-> ->].
  - rewrite (in_index_None _ _ E1).
    destruct (cf !! "Total Cash From Operating Activities") as [row|] eqn:E2.
    + by destruct (in_index_Some _ _ _ E2) as [-> ->].
    + by rewrite (in_index_None _ _ E2).
Qed.

Lemma float_eqb_zero (x : float) : float_eqb x (Fin 0) = true <-> exactly_zero x.
Proof. destruct x; simpl; [apply Qeq_bool_iff | done..]. Qed.

Lemma extract_effective_tax_rate_absent (inc : DataFrame) :
  inc !! "Income Tax Expense" = None \/ inc !! "Pretax Income" = None ->
  extract_effective_tax_rate inc = Ok (Fin (1 # 4)).
Proof.
  unfold extract_effective_tax_rate.
  intros [H|H]; rewrite (in_index_None _ _ H); [done|].
  by rewrite andb_false_r.
Qed.

Lemma extract_effective_tax_rate_present (inc : DataFrame) te rest1 pi rest2 :
  inc !! "Income Tax Expense" = Some (te :: rest1) ->
  inc !! "Pretax Income" = Some (pi :: rest2) ->
  extract_effective_tax_rate inc
  = if float_eqb pi (Fin 0) then Ok (Fin (1 # 4)) else float_div te pi.
Proof.
  intros H1 H2. unfold extract_effective_tax_rate.
  destruct (in_index_Some _ _ _ H1) as [-> ->].
  destruct (in_index_Some _ _ _ H2) as [-> ->].
  cbn [andb bind iloc0]. by destruct (float_eqb pi (Fin 0)).
Qed.

Lemma float_div_nonzero (x y : float) :
  ~ exactly_zero y -> never_fails (float_div x y).
Proof.
  intros Hy. unfold float_div. destruct y as [b| | |]; simpl in Hy.
  - apply is_zero_false in Hy. rewrite Hy. destruct x; by eexists.
  - destruct x; by eexists.
  - destruct x; by eexists.
  - by eexists.
Qed.

Lemma extract_effective_tax_rate_returns (inc : DataFrame) :
  has_period inc -> never_fails (extract_effective_tax_rate inc).
Proof.
  intros Hp.
  destruct (inc !! "Income Tax Expense") as [row1|] eqn:E1;
    [|rewrite extract_effective_tax_rate_absent by auto; by eexists].
  destruct (inc !! "Pretax Income") as [row2|] eqn:E2;
    [|rewrite extract_effective_tax_rate_absent by auto; by eexists].
  destruct (first_period _ _ _ Hp E1) as (te & l1 & ->).
  destruct (first_period _ _ _ Hp E2) as (pi & l2 & ->).
  rewrite (extract_effective_tax_rate_present _ _ _ _ _ E1 E2).
  destruct (float_eqb pi (Fin 0)) eqn:Ez; [by eexists|].
  apply float_div_nonzero. intros Hz. apply float_eqb_zero in Hz. congruence.
Qed.

(** ** The adapter *)

Lemma read_statements_Ok (stock : Ticker) (bs inc cf : DataFrame) :
  read_statements stock = Ok (bs, inc, cf)
  <-> tk_balance_sheet stock = Ok bs /\ tk_financials stock = Ok inc
      /\ tk_cashflow stock = Ok cf.
Proof.
  unfold read_statements.
  destruct (tk_balance_sheet stock) as [bs'|]; cbn [bind]; [|by split; [|intros [? _]]].
  destruct (tk_financials stock) as [inc'|]; cbn [bind];
    [|by split; [|intros (_ & ? & _)]].
  destruct (tk_cashflow stock) as [cf'|]; cbn [bind];
    [|by split; [|intros (_ & _ & ?)]].
  split; [by intros [= -> -> ->] | by intros ([= ->] & [= ->] & [= ->])].
Qed.

(** The [try] block, past the reads: the three extraction steps. *)
Lemma fetch_and_extract_read yf_Ticker ticker stock :
  yf_Ticker ticker = Ok stock ->
  fetch_and_extract yf_Ticker ticker
  = let* stmts := read_statements stock in
    let '(bs, inc, cf) := stmts in
    let* ocf := extract_operating_cashflow cf in
    let* debt := extract_total_debt bs in
    let* rate := extract_effective_tax_rate inc in
    Ok {| operating_cashflow := ocf; total_debt := debt;
          effective_tax_rate := rate; balance_sheet := bs;
          income_stmt := inc; cashflow := cf |}.
Proof.
  intros Hs. unfold fetch_and_extract, read_statements. rewrite Hs. cbn [bind].
  destruct (tk_balance_sheet stock); cbn [bind]; [|done].
  destruct (tk_financials stock); cbn [bind]; [|done].
  by destruct (tk_cashflow stock).
Qed.

Lemma get_financial_data_Ok yf_Ticker ticker bs inc cf snap :
  fetch_gives (yf_Ticker ticker) bs inc cf ->
  get_financial_data yf_Ticker ticker = Ok snap
  <-> exists debt rate,
        extract_total_debt bs = Ok debt
        /\ extract_effective_tax_rate inc = Ok rate
        /\ snap = {| operating_cashflow :=
                       match cf !! "Operating Cash Flow" with
                       | Some row => row
                       | None =>
                           match cf !! "Total Cash From Operating Activities" with
                           | Some row => row
                           | None => [Fin 0; Fin 0; Fin 0; Fin 0]
                           end
                       end;
                     total_debt := debt; effective_tax_rate := rate;
                     balance_sheet := bs; income_stmt := inc; cashflow := cf |}.
Proof.
  intros (stock & Hs & Hread). unfold get_financial_data.
  rewrite (fetch_and_extract_read _ _ _ Hs), Hread. cbn [bind].
  rewrite extract_operating_cashflow_spec. cbn [bind].
  destruct (extract_total_debt bs) as [debt|e]; cbn [bind try_except].
  - destruct (extract_effective_tax_rate inc) as [rate|e]; cbn [bind try_except].
    + split; [intros [= <-]; eauto | by intros (? & ? & [= <-] & [= <-] & ->)].
    + split; [discriminate | by intros (? & ? & _ & ? & _)].
  - split; [discriminate | by intros (? & ? & ? & _)].
Qed.

Lemma get_financial_data_returns yf_Ticker ticker bs inc cf :
  fetch_gives (yf_Ticker ticker) bs inc cf -> has_period bs -> has_period inc ->
  never_fails (get_financial_data yf_Ticker ticker).
Proof.
  intros Hf Hpb Hpi.
  destruct (debt_loop_returns debt_labels bs (Fin 0) Hpb) as [debt Hd].
  destruct (extract_effective_tax_rate_returns inc Hpi) as [rate Hr].
  eexists. apply (get_financial_data_Ok _ _ _ _ _ _ Hf). eauto.
Qed.

Lemma get_financial_data_wraps yf_Ticker ticker e' :
  get_financial_data yf_Ticker ticker = Raise e' ->
  exists e, fetch_and_extract yf_Ticker ticker = Raise e
            /\ e' = Exception (retrieval_message ticker e).
Proof.
  unfold get_financial_data.
  destruct (fetch_and_extract yf_Ticker ticker) as [snap|e]; [discriminate|].
  intros [= <-]. eauto.
Qed.

(** An unknown ticker: the provider raises nothing and serves three empty
    statements; the call returns the snapshot of the defaults and no
    error. *)
Lemma unknown_ticker_is_no_failure :
  fetch_fails (silent_provider "NOSUCH")
  /\ get_financial_data silent_provider "NOSUCH"
     = Ok {| operating_cashflow := [Fin 0; Fin 0; Fin 0; Fin 0];
             total_debt := Fin 0;
             effective_tax_rate := Fin (1 # 4);
             balance_sheet := ∅; income_stmt := ∅; cashflow := ∅ |}
  /\ forall e, get_financial_data silent_provider "NOSUCH" <> Raise e.
Proof.
  split; [right; eexists; split; reflexivity|].
  split; [reflexivity | discriminate].
Qed.

(** C7, as the code has it: when a call of the provider raises, with a
    text [cause], [get_financial_data] raises one exception of the class
    [Exception] whose message names the ticker and ends with that text, and
    returns no snapshot.  When the fetch fails without raising, the
    provider serving statements without rows, nothing is raised and the
    snapshot of the defaults is returned.  Every exception that
    [get_financial_data] raises is an [Exception] with the ticker and the
    text of a cause in its message. *)
Theorem get_financial_data_fetch_failure yf_Ticker (ticker : string) :
  (forall cause,
     provider_raises (yf_Ticker ticker) cause ->
     get_financial_data yf_Ticker ticker
     = Raise (Exception ("Errore nel recupero dei dati per " +:+ ticker +:+ ": " +:+ cause))
     /\ forall snap, get_financial_data yf_Ticker ticker <> Ok snap)
  /\ (serves_nothing (yf_Ticker ticker) ->
      get_financial_data yf_Ticker ticker
      = Ok {| operating_cashflow := [Fin 0; Fin 0; Fin 0; Fin 0];
              total_debt := Fin 0;
              effective_tax_rate := Fin (1 # 4);
              balance_sheet := ∅; income_stmt := ∅; cashflow := ∅ |})
  /\ (forall e', get_financial_data yf_Ticker ticker = Raise e' ->
        exists e, e' = Exception ("Errore nel recupero dei dati per " +:+ ticker
                                  +:+ ": " +:+ str_exc e)).
Proof.
  split; [|split].
  - intros cause Hf.
    assert (H : get_financial_data yf_Ticker ticker
                = Raise (Exception (retrieval_message ticker (ProviderError cause)))).
    { unfold get_financial_data. destruct Hf as [H|(stock & Hs & H)].
      - unfold fetch_and_extract. by rewrite H.
      - by rewrite (fetch_and_extract_read _ _ _ Hs), H. }
    split; [exact H|]. intros snap. rewrite H. discriminate.
  - intros Hs. apply (get_financial_data_Ok _ _ ∅ ∅ ∅ _ Hs).
    exists (Fin 0), (Fin (1 # 4)). by repeat split.
  - intros e' H. destruct (get_financial_data_wraps _ _ _ H) as (e & _ & ->).
    by exists e.
Qed.

Lemma get_financial_data_fetch_failure_witness :
  provider_raises (unreachable_provider "AAPL") "HTTP Error 404"
  /\ get_financial_data unreachable_provider "AAPL"
     = Raise (Exception "Errore nel recupero dei dati per AAPL: HTTP Error 404").
Proof.
  assert (H : provider_raises (unreachable_provider "AAPL") "HTTP Error 404")
    by (right; eexists; split; reflexivity).
  split; [exact H|].
  exact (proj1 (proj1 (get_financial_data_fetch_failure unreachable_provider "AAPL")
                  "HTTP Error 404" H)).
Defined.

Lemma sample_has_period :
  has_period sample_balance_sheet /\ has_period sample_income_stmt.
Proof.
  unfold sample_balance_sheet, sample_income_stmt.
  split; intros label row H.
  - apply lookup_singleton_Some in H as [_ <-]. done.
  - apply lookup_insert_Some in H as [[_ <-]|[_ H]]; [done|].
    apply lookup_singleton_Some in H as [_ <-]. done.
Qed.

Lemma sample_fetch_gives (ticker : string) :
  fetch_gives (sample_provider ticker)
              sample_balance_sheet sample_income_stmt sample_cashflow.
Proof. eexists. split; reflexivity. Qed.

(** C9: the snapshot's operating cash flows are the row "Operating Cash
    Flow" of the cash-flow statement when it has one, else the row "Total
    Cash From Operating Activities" when it has one, else four zeros; and a
    snapshot is returned when the other two statements have a reporting
    period. *)
Theorem operating_cashflow_fallback yf_Ticker (ticker : string) (bs inc cf : DataFrame) :
  fetch_gives (yf_Ticker ticker) bs inc cf ->
  (forall snap,
     get_financial_data yf_Ticker ticker = Ok snap ->
     cashflow snap = cf
     /\ operating_cashflow snap
        = match cf !! "Operating Cash Flow" with
          | Some row => row
          | None =>
              match cf !! "Total Cash From Operating Activities" with
              | Some row => row
              | None => [Fin 0; Fin 0; Fin 0; Fin 0]
              end
          end)
  /\ (has_period bs -> has_period inc ->
      exists snap, get_financial_data yf_Ticker ticker = Ok snap).
Proof.
  intros Hf. split.
  - intros snap Hsnap.
    apply (get_financial_data_Ok _ _ _ _ _ _ Hf) in Hsnap as (debt & rate & _ & _ & ->).
    by split.
  - intros Hpb Hpi. by apply (get_financial_data_returns _ _ bs inc cf).
Qed.

Lemma operating_cashflow_fallback_witness :
  exists snap,
    get_financial_data sample_provider "MSFT" = Ok snap
    /\ operating_cashflow snap = [Fin 10; Fin (-20)].
Proof.
  destruct (operating_cashflow_fallback sample_provider "MSFT" _ _ _
              (sample_fetch_gives "MSFT")) as [Hspec Hret].
  destruct (Hret (proj1 sample_has_period) (proj2 sample_has_period)) as [snap Hs].
  exists snap. split; [exact Hs|]. exact (proj2 (Hspec snap Hs)).
Defined.

(** C8: the snapshot's effective tax rate is, when the income statement has
    both rows "Income Tax Expense" and "Pretax Income", the quotient of
    their most recent values, or exactly 0.25 when the pretax income is
    exactly zero; it is exactly 0.25 when either row is absent; and a
    snapshot is returned when the two statements read by index have a
    reporting period. *)
Theorem effective_tax_rate_fallback yf_Ticker (ticker : string) (bs inc cf : DataFrame) :
  fetch_gives (yf_Ticker ticker) bs inc cf ->
  (forall snap,
     get_financial_data yf_Ticker ticker = Ok snap ->
     income_stmt snap = inc
     /\ (forall row1 row2,
           inc !! "Income Tax Expense" = Some row1 ->
           inc !! "Pretax Income" = Some row2 ->
           exists tax_expense pretax_income,
             head row1 = Some tax_expense /\ head row2 = Some pretax_income
             /\ (exactly_zero pretax_income -> effective_tax_rate snap = Fin (1 # 4))
             /\ (~ exactly_zero pretax_income ->
                 float_div tax_expense pretax_income = Ok (effective_tax_rate snap))
             /\ (forall a b,
                   tax_expense = Fin a -> pretax_income = Fin b -> ~ b == 0 ->
                   effective_tax_rate snap = Fin (a / b)))
     /\ (inc !! "Income Tax Expense" = None \/ inc !! "Pretax Income" = None ->
         effective_tax_rate snap = Fin (1 # 4)))
  /\ (has_period bs -> has_period inc ->
      exists snap, get_financial_data yf_Ticker ticker = Ok snap).
Proof.
  intros Hf. split.
  - intros snap Hsnap.
    apply (get_financial_data_Ok _ _ _ _ _ _ Hf) in Hsnap as (debt & rate & _ & Hrate & ->).
    split; [done|]. cbn [effective_tax_rate]. split.
    + intros row1 row2 H1 H2.
      destruct row1 as [|te l1], row2 as [|pi l2];
        try (exfalso; revert Hrate; unfold extract_effective_tax_rate;
             destruct (in_index_Some _ _ _ H1) as [-> ->];
             destruct (in_index_Some _ _ _ H2) as [-> ->]; discriminate).
      exists te, pi. split; [done|]. split; [done|].
      rewrite (extract_effective_tax_rate_present _ _ _ _ _ H1 H2) in Hrate.
      destruct (float_eqb pi (Fin 0)) eqn:Ez.
      * apply float_eqb_zero in Ez. injection Hrate as <-.
        split; [done|]. split; [done|].
        intros a b _ -> Hb. by simpl in Ez.
      * assert (Hnz : ~ exactly_zero pi).
        { intros Hz. apply float_eqb_zero in Hz. congruence. }
        split; [done|]. split; [done|].
        intros a b -> -> Hb. cbn [float_div] in Hrate.
        apply is_zero_false in Hb. rewrite Hb in Hrate. by injection Hrate as <-.
    + intros Habs. rewrite (extract_effective_tax_rate_absent _ Habs) in Hrate.
      by injection Hrate as <-.
  - intros Hpb Hpi. by apply (get_financial_data_returns _ _ bs inc cf).
Qed.

Lemma effective_tax_rate_fallback_witness :
  exists snap,
    get_financial_data sample_provider "MSFT" = Ok snap
    /\ effective_tax_rate snap = Fin (30 / 120).
Proof.
  destruct (effective_tax_rate_fallback sample_provider "MSFT" _ _ _
              (sample_fetch_gives "MSFT")) as [Hspec Hret].
  destruct (Hret (proj1 sample_has_period) (proj2 sample_has_period)) as [snap Hs].
  exists snap. split; [exact Hs|].
  destruct (Hspec snap Hs) as (_ & Hboth & _).
  destruct (Hboth [Fin 30; Fin 20] [Fin 120; Fin 100] eq_refl eq_refl)
    as (te & pi & [= <-] & [= <-] & _ & _ & Hreal).
  apply (Hreal 30 120 eq_refl eq_refl). intros E. discriminate E.
Defined.

Example tax_rate_zero_pretax_income :
  extract_effective_tax_rate
    (<[ "Income Tax Expense"%string := [Fin 30] ]> {[ "Pretax Income"%string := [Fin 0] ]})
  = Ok (Fin (1 # 4)).
Proof. reflexivity. Qed.

Example operating_cashflow_zeros :
  extract_operating_cashflow ∅ = Ok [Fin 0; Fin 0; Fin 0; Fin 0].
Proof. reflexivity. Qed.

(** ** More on the discounted sum *)

Lemma sum_upto_scale (n : nat) (k : Q) (f : nat -> Q) :
  sum_upto n (fun i => k * f i) == k * sum_upto n f.
Proof.
  induction n as [|n IH]; cbn [sum_upto]; [ring|]. rewrite IH. ring.
Qed.

Lemma Qpower_succ (a : Q) (n : nat) :
  ~ a == 0 -> a ^ Z.of_nat (S n) == a * a ^ Z.of_nat n.
Proof.
  intros Ha. rewrite Nat2Z.inj_succ. unfold Z.succ.
  rewrite Qpower_plus by exact Ha. rewrite Qpower_1_r. ring.
Qed.

(** The sum, one year at a time: the first flow and the value of the
    others a year later, discounted by one year. *)
Lemma discounted_sum_cons (c : Q) (cs : list Q) (r : Q) :
  ~ 1 + r == 0 ->
  discounted_sum (c :: cs) r == (c + discounted_sum cs r) / (1 + r).
Proof.
  intros Hr. unfold discounted_sum.
  change (length (c :: cs)) with (S (length cs)).
  rewrite sum_upto_shift. cbn [nth].
  rewrite (sum_upto_ext (length cs)
             (fun i => nth i cs 0 / (1 + r) ^ Z.of_nat (S i + 1))
             (fun i => / (1 + r) * (nth i cs 0 / (1 + r) ^ Z.of_nat (i + 1)))).
  - rewrite sum_upto_scale. change (0 + 1)%nat with 1%nat.
    change (Z.of_nat 1) with 1%Z. rewrite Qpower_1_r. field. exact Hr.
  - intros i _. change (S i + 1)%nat with (S (i + 1)).
    rewrite Qpower_succ by exact Hr. field.
    split; [by apply Qpower_not_0 | exact Hr].
Qed.


Lemma discounted_sum_nonneg (cs : list Q) (r : Q) :
  0 < 1 + r -> Forall (Qle 0) cs -> 0 <= discounted_sum cs r.
Proof.
  intros Hr. induction 1 as [|c cs Hc _ IH]; [apply Qle_refl|].
  rewrite discounted_sum_cons by lra.
  apply Qle_shift_div_l; [exact Hr|]. lra.
Qed.



Lemma discounted_sum_zero_rate (cs : list Q) (r : Q) :
  r == 0 -> discounted_sum cs r == Qsum cs.
Proof.
  intros Hr. induction cs as [|c cs IH]; [reflexivity|].
  rewrite discounted_sum_cons by lra. rewrite IH. cbn [Qsum fold_right].
  fold (Qsum cs). rewrite Hr. field.
Qed.

Lemma discounted_sum_antitone (cs : list Q) (r1 r2 : Q) :
  Forall (Qle 0) cs -> 0 < 1 + r1 -> r1 <= r2 ->
  discounted_sum cs r2 <= discounted_sum cs r1.
Proof.
  intros Hcs Hr1 Hr. induction Hcs as [|c cs Hc Hcs IH]; [apply Qle_refl|].
  rewrite !discounted_sum_cons by lra.
  assert (H2 : 0 <= discounted_sum cs r2) by (apply discounted_sum_nonneg; [lra|done]).
  apply Qle_trans with ((c + discounted_sum cs r2) / (1 + r1)).
  - apply Qle_shift_div_l; [exact Hr1|].
    set (x := c + discounted_sum cs r2).
    assert (Hy : 0 <= x / (1 + r2)) by (apply Qle_shift_div_l; unfold x; lra).
    assert (Hx : x / (1 + r2) * (1 + r2) == x) by (field; lra).
    apply Qle_trans with (x / (1 + r2) * (1 + r2));
      [|rewrite Hx; apply Qle_refl].
    rewrite !(Qmult_comm (x / (1 + r2))).
    apply Qmult_le_compat_r; [lra | exact Hy].
  - apply Qle_shift_div_l; [exact Hr1|].
    assert (Hx : (c + discounted_sum cs r2) / (1 + r1) * (1 + r1)
                 == c + discounted_sum cs r2) by (field; lra).
    rewrite Hx. lra.
Qed.

(** ** Net present value: years, rates and bounds *)

Lemma cleaned_series_app (l1 l2 : list (option float)) :
  cleaned_series (l1 ++ l2) = cleaned_series l1 ++ cleaned_series l2.
Proof. unfold cleaned_series. by rewrite List.filter_app, map_app. Qed.



(** X1: An entry that is [None] or not-a-number can be removed from the series,
    wherever it is, without changing the result: the flows after it are
    counted one year earlier than their place in the input. *)
Theorem calculate_npv_skips_absent
    (l1 l2 : list (option float)) (cf : option float) (discount_rate : float) :
  cf = None \/ cf = Some NaN ->
  calculate_npv (l1 ++ cf :: l2) discount_rate = calculate_npv (l1 ++ l2) discount_rate.
Proof.
  intros Hcf. rewrite !calculate_npv_cleaned, !cleaned_series_app, cleaned_series_cons.
  by destruct Hcf as [-> | ->].
Qed.

Lemma calculate_npv_skips_absent_witness :
  calculate_npv ([Some (Fin 100)] ++ Some NaN :: [Some (Fin 50)]) (Fin (1 # 10))
  = calculate_npv ([Some (Fin 100)] ++ [Some (Fin 50)]) (Fin (1 # 10)).
Proof.
  apply (calculate_npv_skips_absent [Some (Fin 100)] [Some (Fin 50)] (Some NaN)).
  right. reflexivity.
Defined.

Lemma counted_cons_real (c : Q) (cash_flows : list (option float)) :
  counted (Some (Fin c) :: cash_flows) = S (counted cash_flows).
Proof. reflexivity. Qed.






Lemma in_double_range_unit_power (r : Q) (n : nat) :
  r == 0 -> in_double_range ((1 + r) ^ Z.of_nat n).
Proof.
  intros Hr. apply (in_double_range_proper 1); [|apply in_double_range_one].
  assert (E : 1 + r == 1) by lra. rewrite E. symmetry. apply Qpower_1.
Qed.

(** X4: At a discount rate of zero the result is the sum of the magnitudes of
    the flows. *)
Theorem calculate_npv_zero_rate (cash_flows : list (option float)) (r : Q) :
  Forall real_or_missing cash_flows -> r == 0 ->
  exists s, calculate_npv cash_flows (Fin r) = Ok (Fin s)
            /\ s == Qsum (cleaned_reals cash_flows).
Proof.
  intros Hcf Hr.
  destruct (calculate_npv_reals _ r Hcf) as (s & Hs & Es);
    [by apply in_double_range_unit_power|].
  exists s. split; [exact Hs|]. rewrite Es. by apply discounted_sum_zero_rate.
Qed.

Lemma calculate_npv_zero_rate_witness :
  exists s, calculate_npv [Some (Fin 10); Some NaN; Some (Fin (-5))] (Fin 0) = Ok (Fin s)
            /\ s == Qsum [10; 5].
Proof.
  apply (calculate_npv_zero_rate [Some (Fin 10); Some NaN; Some (Fin (-5))] 0).
  - repeat constructor.
  - reflexivity.
Defined.










(** ** Net present value: infinite flows and a rate that is not a number *)





Lemma npv_loop_nan_acc (items : list float) (t : nat) :
  npv_loop NaN items t NaN = Ok NaN.
Proof.
  revert t. induction items as [|x rest IH]; intros t; [done|].
  rewrite npv_loop_cons, Nat.add_1_r. cbn [float_add float_pow bind].
  assert (Hd : float_div x NaN = Ok NaN) by (by destruct x).
  rewrite Hd. cbn [bind float_add]. apply IH.
Qed.

(** X9: A discount rate that is not a number is not rejected: as soon as one
    entry counts, the result is not a number either. *)
Theorem calculate_npv_nan_rate (cash_flows : list (option float)) (x : float) :
  In (Some x) cash_flows -> x <> NaN ->
  calculate_npv cash_flows NaN = Ok NaN.
Proof.
  intros Hin Hx. rewrite calculate_npv_cleaned.
  assert (Hne : cleaned_series cash_flows <> []).
  { induction cash_flows as [|cf rest IH]; [done|].
    rewrite cleaned_series_cons. destruct Hin as [-> | Hin].
    - destruct x; try done.
    - destruct (is_present cf); [done | by apply IH]. }
  destruct (cleaned_series cash_flows) as [|y items]; [done|].
  rewrite npv_loop_cons, Nat.add_1_r. cbn [float_add float_pow bind].
  assert (Hd : float_div y NaN = Ok NaN) by (by destruct y).
  rewrite Hd. cbn [bind]. replace (float_add (Fin 0) NaN) with NaN by done.
  apply npv_loop_nan_acc.
Qed.

Lemma calculate_npv_nan_rate_witness :
  calculate_npv [None; Some (Fin 100)] NaN = Ok NaN.
Proof.
  apply (calculate_npv_nan_rate [None; Some (Fin 100)] (Fin 100)).
  - right. left. reflexivity.
  - discriminate.
Defined.

(** ** Tax shield: closed form, range and the step at zero *)

Lemma calculate_tax_shield_cross (d tr c : Q) :
  ~ c == 0 -> ~ 1 + c == 0 ->
  exists v, calculate_tax_shield (Some (Fin d)) (Some (Fin tr)) (Some (Fin c)) = Ok (Fin v)
            /\ v * (1 + c) == d * tr * c.
Proof.
  intros Hc H1c. destruct (calculate_tax_shield_real d tr c Hc H1c) as (v & Hv & Ev).
  exists v. split; [exact Hv|]. rewrite Ev. field. exact H1c.
Qed.

(** X10: Away from 0 and -1 the tax shield is one year of tax saved on the
    interest, discounted by one year at the cost of debt:
    [debt * tax_rate * cost_of_debt / (1 + cost_of_debt)]. *)
Theorem calculate_tax_shield_one_year (d tr c : Q) :
  ~ c == 0 -> ~ 1 + c == 0 ->
  exists v, calculate_tax_shield (Some (Fin d)) (Some (Fin tr)) (Some (Fin c)) = Ok (Fin v)
            /\ v == d * tr * c / (1 + c).
Proof.
  intros Hc H1c. destruct (calculate_tax_shield_real d tr c Hc H1c) as (v & Hv & Ev).
  exists v. split; [exact Hv|]. rewrite Ev. field. exact H1c.
Qed.

Lemma calculate_tax_shield_one_year_witness :
  exists v,
    calculate_tax_shield (Some (Fin 1000)) (Some (Fin (1 # 4))) (Some (Fin (1 # 20)))
    = Ok (Fin v)
    /\ v == 1000 * (1 # 4) * (1 # 20) / (1 + (1 # 20)).
Proof.
  apply (calculate_tax_shield_one_year 1000 (1 # 4) (1 # 20));
    intros E; discriminate E.
Defined.

(** X11: With a debt, a tax rate and a cost of debt that are not negative, the
    tax shield is between zero and [debt * tax_rate]. *)
Theorem calculate_tax_shield_range (d tr c : Q) :
  0 <= d -> 0 <= tr -> 0 <= c ->
  exists v, calculate_tax_shield (Some (Fin d)) (Some (Fin tr)) (Some (Fin c)) = Ok (Fin v)
            /\ 0 <= v /\ v <= d * tr.
Proof.
  intros Hd Htr Hc. assert (Hx : 0 <= d * tr) by (by apply Qmult_le_0_compat).
  destruct (Qeq_dec c 0) as [Hz|Hnz].
  - exists (d * tr). split; [by apply calculate_tax_shield_zero_cost|].
    split; [exact Hx | apply Qle_refl].
  - destruct (calculate_tax_shield_cross d tr c Hnz) as (v & Hv & Ev); [lra|].
    exists v. split; [exact Hv|].
    assert (0 < c) by (destruct (Qlt_le_dec 0 c); [done | lra]).
    set (x := d * tr) in *. split; nra.
Qed.

Lemma calculate_tax_shield_range_witness :
  exists v,
    calculate_tax_shield (Some (Fin 1000)) (Some (Fin (1 # 4))) (Some (Fin (1 # 20)))
    = Ok (Fin v)
    /\ 0 <= v /\ v <= 1000 * (1 # 4).
Proof.
  apply (calculate_tax_shield_range 1000 (1 # 4) (1 # 20)); intros E; discriminate E.
Defined.

(** X12: The special case at zero is a step: at a cost of debt of exactly zero
    the result is [debt * tax_rate], while at a positive cost of debt [c] it
    is at most [debt * tax_rate * c], as small as one likes near zero. *)
Theorem calculate_tax_shield_step_at_zero (d tr c : Q) :
  0 <= d * tr -> 0 < c ->
  calculate_tax_shield (Some (Fin d)) (Some (Fin tr)) (Some (Fin 0)) = Ok (Fin (d * tr))
  /\ exists v,
       calculate_tax_shield (Some (Fin d)) (Some (Fin tr)) (Some (Fin c)) = Ok (Fin v)
       /\ v <= d * tr * c.
Proof.
  intros Hx Hc. split; [by apply calculate_tax_shield_zero_cost|].
  destruct (calculate_tax_shield_cross d tr c) as (v & Hv & Ev); [lra | lra |].
  exists v. split; [exact Hv|]. set (x := d * tr) in *. nra.
Qed.

Lemma calculate_tax_shield_step_at_zero_witness :
  calculate_tax_shield (Some (Fin 1000)) (Some (Fin (1 # 4))) (Some (Fin 0))
  = Ok (Fin (1000 * (1 # 4)))
  /\ exists v,
       calculate_tax_shield (Some (Fin 1000)) (Some (Fin (1 # 4))) (Some (Fin (1 # 1000)))
       = Ok (Fin v)
       /\ v <= 1000 * (1 # 4) * (1 # 1000).
Proof.
  apply (calculate_tax_shield_step_at_zero 1000 (1 # 4) (1 # 1000)).
  - intros E. discriminate E.
  - reflexivity.
Defined.

(** X13: Rates are not validated: with [debt * tax_rate] positive, a cost of
    debt between -1 and 0 gives a negative tax shield, and one below -1 a
    tax shield above [debt * tax_rate]. *)
Theorem calculate_tax_shield_negative_cost (d tr c : Q) :
  0 < d * tr -> c < 0 -> ~ c == -1 ->
  exists v, calculate_tax_shield (Some (Fin d)) (Some (Fin tr)) (Some (Fin c)) = Ok (Fin v)
            /\ (-1 < c -> v < 0) /\ (c < -1 -> d * tr < v).
Proof.
  intros Hx Hc Hm.
  destruct (calculate_tax_shield_cross d tr c) as (v & Hv & Ev); [lra | lra |].
  exists v. split; [exact Hv|]. set (x := d * tr) in *. split; intros; nra.
Qed.

Lemma calculate_tax_shield_negative_cost_witness :
  exists v,
    calculate_tax_shield (Some (Fin 1000)) (Some (Fin (1 # 4))) (Some (Fin (-(1 # 2))))
    = Ok (Fin v)
    /\ (-1 < -(1 # 2) -> v < 0) /\ (-(1 # 2) < -1 -> 1000 * (1 # 4) < v).
Proof.
  apply (calculate_tax_shield_negative_cost 1000 (1 # 4) (-(1 # 2))).
  - reflexivity.
  - reflexivity.
  - intros E. discriminate E.
Defined.

(** ** Sensitivity analysis: order and centre *)

Lemma sensitivity_analysis_nth (b : Q) (ds : list Q) (i : nat) (d : Q) :
  nth_error ds i = Some d ->
  exists res,
    sensitivity_analysis (Fin b) (map Fin ds) = Ok res
    /\ nth_error (values res) i = Some (Fin (b * (1 + d))).
Proof.
  intros Hd. eexists. split; [reflexivity|]. cbn [values].
  by rewrite !nth_error_map, Hd.
Qed.

(** X14: The values follow the order of the deltas when the base value is not
    negative, and the opposite order when it is not positive. *)
Theorem sensitivity_analysis_monotone (b : Q) (ds : list Q) (i j : nat) (di dj : Q) :
  nth_error ds i = Some di -> nth_error ds j = Some dj -> di <= dj ->
  exists res vi vj,
    sensitivity_analysis (Fin b) (map Fin ds) = Ok res
    /\ nth_error (values res) i = Some (Fin vi)
    /\ nth_error (values res) j = Some (Fin vj)
    /\ (0 <= b -> vi <= vj) /\ (b <= 0 -> vj <= vi).
Proof.
  intros Hi Hj Hle.
  destruct (sensitivity_analysis_nth b ds i di Hi) as (res & Hres & Hvi).
  destruct (sensitivity_analysis_nth b ds j dj Hj) as (res' & Hres' & Hvj).
  assert (res' = res) as -> by congruence.
  exists res, (b * (1 + di)), (b * (1 + dj)).
  split; [exact Hres|]. split; [exact Hvi|]. split; [exact Hvj|].
  split; intros; nra.
Qed.

Lemma sensitivity_analysis_monotone_witness :
  exists res vi vj,
    sensitivity_analysis (Fin 100) (map Fin [1 # 10; -(2 # 10); 0]) = Ok res
    /\ nth_error (values res) 1 = Some (Fin vi)
    /\ nth_error (values res) 0 = Some (Fin vj)
    /\ (0 <= 100 -> vi <= vj) /\ (100 <= 0 -> vj <= vi).
Proof.
  apply (sensitivity_analysis_monotone 100 [1 # 10; -(2 # 10); 0] 1 0 (-(2 # 10)) (1 # 10)).
  - reflexivity.
  - reflexivity.
  - intros E. discriminate E.
Defined.

(** X15: A delta of zero gives back the base value, and the values at two
    opposite deltas are centred on it. *)
Theorem sensitivity_analysis_centre (b : Q) (ds : list Q) (i j : nat) (di dj : Q) :
  nth_error ds i = Some di -> nth_error ds j = Some dj ->
  exists res vi vj,
    sensitivity_analysis (Fin b) (map Fin ds) = Ok res
    /\ nth_error (values res) i = Some (Fin vi)
    /\ nth_error (values res) j = Some (Fin vj)
    /\ (di == 0 -> vi == b) /\ (dj == - di -> vi + vj == 2 * b).
Proof.
  intros Hi Hj.
  destruct (sensitivity_analysis_nth b ds i di Hi) as (res & Hres & Hvi).
  destruct (sensitivity_analysis_nth b ds j dj Hj) as (res' & Hres' & Hvj).
  assert (res' = res) as -> by congruence.
  exists res, (b * (1 + di)), (b * (1 + dj)).
  split; [exact Hres|]. split; [exact Hvi|]. split; [exact Hvj|].
  split; intros E; rewrite E; ring.
Qed.

Lemma sensitivity_analysis_centre_witness :
  exists res vi vj,
    sensitivity_analysis (Fin 100) (map Fin [-(2 # 10); 0; 2 # 10]) = Ok res
    /\ nth_error (values res) 0 = Some (Fin vi)
    /\ nth_error (values res) 2 = Some (Fin vj)
    /\ (-(2 # 10) == 0 -> vi == 100) /\ (2 # 10 == - - (2 # 10) -> vi + vj == 2 * 100).
Proof.
  apply (sensitivity_analysis_centre 100 [-(2 # 10); 0; 2 # 10] 0 2 (-(2 # 10)) (2 # 10));
    reflexivity.
Defined.

(** ** The adapter: total debt, defaults and failures *)

Lemma extract_total_debt_spec (bs : DataFrame) :
  extract_total_debt bs
  = match first_debt_row bs with
    | Some row => iloc0 row
    | None => Ok (Fin 0)
    end.
Proof.
  unfold extract_total_debt, first_debt_row, debt_labels. cbn [debt_loop].
  destruct (bs !! "Total Debt") as [row|] eqn:E1.
  { by destruct (in_index_Some _ _ _ E1) as [-> ->]. }
  rewrite (in_index_None _ _ E1).
  destruct (bs !! "Long Term Debt") as [row|] eqn:E2.
  { by destruct (in_index_Some _ _ _ E2) as [-> ->]. }
  rewrite (in_index_None _ _ E2).
  destruct (bs !! "Total Long Term Debt") as [row|] eqn:E3.
  { by destruct (in_index_Some _ _ _ E3) as [-> ->]. }
  by rewrite (in_index_None _ _ E3).
Qed.

Lemma iloc0_raises (row : list float) (e : exc) :
  iloc0 row = Raise e <-> e = IndexError /\ row = [].
Proof.
  destruct row as [|x rest]; simpl.
  - split; [by intros [= <-] | by intros [-> _]].
  - split; [discriminate | by intros [_ ?]].
Qed.

Lemma extract_total_debt_raises (bs : DataFrame) (e : exc) :
  extract_total_debt bs = Raise e <-> e = IndexError /\ first_debt_row bs = Some [].
Proof.
  rewrite extract_total_debt_spec. destruct (first_debt_row bs) as [row|].
  - rewrite iloc0_raises. split; [by intros [-> ->] | by intros [-> [= ->]]].
  - split; [discriminate | by intros [_ ?]].
Qed.

Lemma extract_effective_tax_rate_raises (inc : DataFrame) (e : exc) :
  extract_effective_tax_rate inc = Raise e
  <-> e = IndexError
      /\ exists row1 row2,
           inc !! "Income Tax Expense" = Some row1
           /\ inc !! "Pretax Income" = Some row2
           /\ (row1 = [] \/ row2 = []).
Proof.
  destruct (inc !! "Income Tax Expense") as [row1|] eqn:E1;
    [|rewrite extract_effective_tax_rate_absent by auto;
      split; [discriminate | by intros (_ & ? & ? & ? & _)]].
  destruct (inc !! "Pretax Income") as [row2|] eqn:E2;
    [|rewrite extract_effective_tax_rate_absent by auto;
      split; [discriminate | by intros (_ & ? & ? & _ & ? & _)]].
  destruct row1 as [|te l1], row2 as [|pi l2].
  - unfold extract_effective_tax_rate.
    destruct (in_index_Some _ _ _ E1) as [-> ->].
    destruct (in_index_Some _ _ _ E2) as [-> ->]. cbn.
    split; [intros [= <-]; eauto 10 | by intros [-> _]].
  - unfold extract_effective_tax_rate.
    destruct (in_index_Some _ _ _ E1) as [-> ->].
    destruct (in_index_Some _ _ _ E2) as [-> ->]. cbn.
    split; [intros [= <-]; eauto 10 | by intros [-> _]].
  - unfold extract_effective_tax_rate.
    destruct (in_index_Some _ _ _ E1) as [-> ->].
    destruct (in_index_Some _ _ _ E2) as [-> ->]. cbn.
    split; [intros [= <-]; eauto 10 | by intros [-> _]].
  - rewrite (extract_effective_tax_rate_present _ _ _ _ _ E1 E2).
    destruct (float_eqb pi (Fin 0)) eqn:Ez.
    + split; [discriminate|].
      intros (_ & r1 & r2 & [= <-] & [= <-] & [?|?]); discriminate.
    + destruct (float_div_nonzero te pi) as [v ->].
      { intros Hz. apply float_eqb_zero in Hz. congruence. }
      split; [discriminate|].
      intros (_ & r1 & r2 & [= <-] & [= <-] & [?|?]); discriminate.
Qed.

(** X16: The snapshot's total debt is the most recent value of the first of the
    rows "Total Debt", "Long Term Debt" and "Total Long Term Debt" that the
    balance sheet has, and zero when it has none; the balance sheet is
    passed on as it was read. *)
Theorem total_debt_fallback yf_Ticker (ticker : string) (bs inc cf : DataFrame) :
  fetch_gives (yf_Ticker ticker) bs inc cf ->
  (forall snap,
     get_financial_data yf_Ticker ticker = Ok snap ->
     balance_sheet snap = bs
     /\ match bs !! "Total Debt" with
        | Some row => head row = Some (total_debt snap)
        | None =>
            match bs !! "Long Term Debt" with
            | Some row => head row = Some (total_debt snap)
            | None =>
                match bs !! "Total Long Term Debt" with
                | Some row => head row = Some (total_debt snap)
                | None => total_debt snap = Fin 0
                end
            end
        end)
  /\ (has_period bs -> has_period inc ->
      exists snap, get_financial_data yf_Ticker ticker = Ok snap).
Proof.
  intros Hf. split.
  - intros snap Hsnap.
    apply (get_financial_data_Ok _ _ _ _ _ _ Hf) in Hsnap as (debt & rate & Hd & _ & ->).
    split; [done|]. cbn [total_debt].
    rewrite extract_total_debt_spec in Hd. unfold first_debt_row in Hd.
    destruct (bs !! "Total Debt") as [[|x l]|]; [done | by injection Hd as <- |].
    destruct (bs !! "Long Term Debt") as [[|x l]|]; [done | by injection Hd as <- |].
    destruct (bs !! "Total Long Term Debt") as [[|x l]|];
      [done | by injection Hd as <- | by injection Hd as <-].
  - intros Hpb Hpi. by apply (get_financial_data_returns _ _ bs inc cf).
Qed.

Lemma total_debt_fallback_witness :
  exists snap,
    get_financial_data sample_provider "MSFT" = Ok snap /\ total_debt snap = Fin 500.
Proof.
  destruct (total_debt_fallback sample_provider "MSFT" _ _ _
              (sample_fetch_gives "MSFT")) as [Hspec Hret].
  destruct (Hret (proj1 sample_has_period) (proj2 sample_has_period)) as [snap Hs].
  exists snap. split; [exact Hs|].
  destruct (Hspec snap Hs) as [_ Hd]. by injection Hd as <-.
Defined.

(** X17: Once the three statements are read, [get_financial_data] fails only on
    a row without a value to read: the row the total debt is taken from,
    or one of the two tax rows when the income statement has both.  The
    cause in the message is then the [IndexError] of [.iloc[0]]; no division
    by zero and no missing label can be the cause. *)
Theorem get_financial_data_extraction_failure
    yf_Ticker (ticker : string) (bs inc cf : DataFrame) (e : exc) :
  fetch_gives (yf_Ticker ticker) bs inc cf ->
  get_financial_data yf_Ticker ticker = Raise e
  <-> e = Exception ("Errore nel recupero dei dati per " +:+ ticker +:+ ": "
                     +:+ "single positional indexer is out-of-bounds")
      /\ (first_debt_row bs = Some []
          \/ exists row1 row2,
               inc !! "Income Tax Expense" = Some row1
               /\ inc !! "Pretax Income" = Some row2
               /\ (row1 = [] \/ row2 = [])).
Proof.
  intros (stock & Hs & Hread). unfold get_financial_data.
  rewrite (fetch_and_extract_read _ _ _ Hs), Hread. cbn [bind].
  rewrite extract_operating_cashflow_spec. cbn [bind].
  destruct (extract_total_debt bs) as [debt|e1] eqn:Ed; cbn [bind try_except].
  - assert (Hnd : first_debt_row bs <> Some []).
    { intros H. assert (extract_total_debt bs = Raise IndexError) as E
        by (by apply extract_total_debt_raises). congruence. }
    destruct (extract_effective_tax_rate inc) as [rate|e2] eqn:Er; cbn [bind try_except].
    + split; [discriminate|]. intros (_ & [H|H]); [done|].
      assert (extract_effective_tax_rate inc = Raise IndexError) as E
        by (by apply extract_effective_tax_rate_raises). congruence.
    + apply extract_effective_tax_rate_raises in Er as (-> & Hrows).
      split; [intros [= <-]; by split; [|right] | by intros [-> _]].
  - apply extract_total_debt_raises in Ed as (-> & Hrow).
    split; [intros [= <-]; by split; [|left] | by intros [-> _]].
Qed.

(** A balance sheet whose debt row has no reporting period. *)
Lemma empty_debt_row_fetch (ticker : string) :
  fetch_gives
    (Ok {| tk_balance_sheet := Ok {[ "Total Debt"%string := [] ]};
           tk_financials := Ok sample_income_stmt;
           tk_cashflow := Ok sample_cashflow |})
    {[ "Total Debt"%string := [] ]} sample_income_stmt sample_cashflow.
Proof. eexists. split; reflexivity. Qed.

Lemma get_financial_data_extraction_failure_witness :
  get_financial_data
    (fun _ => Ok {| tk_balance_sheet := Ok {[ "Total Debt"%string := [] ]};
                    tk_financials := Ok sample_income_stmt;
                    tk_cashflow := Ok sample_cashflow |})
    "MSFT"
  = Raise (Exception ("Errore nel recupero dei dati per MSFT: "
                      +:+ "single positional indexer is out-of-bounds")).
Proof.
  apply (proj2 (get_financial_data_extraction_failure
                  (fun _ => Ok {| tk_balance_sheet := Ok {[ "Total Debt"%string := [] ]};
                                  tk_financials := Ok sample_income_stmt;
                                  tk_cashflow := Ok sample_cashflow |})
                  "MSFT" _ _ _ _ (empty_debt_row_fetch "MSFT"))).
  split; [reflexivity|]. left. reflexivity.
Defined.

(** X18: Statements that have none of the rows looked for (as the empty
    statements of an unknown ticker) are no failure: the snapshot has four
    zero cash flows, a total debt of zero and a tax rate of 0.25. *)
Theorem get_financial_data_defaults yf_Ticker (ticker : string) (bs inc cf : DataFrame) :
  fetch_gives (yf_Ticker ticker) bs inc cf ->
  cf !! "Operating Cash Flow" = None ->
  cf !! "Total Cash From Operating Activities" = None ->
  bs !! "Total Debt" = None -> bs !! "Long Term Debt" = None ->
  bs !! "Total Long Term Debt" = None ->
  inc !! "Income Tax Expense" = None \/ inc !! "Pretax Income" = None ->
  get_financial_data yf_Ticker ticker
  = Ok {| operating_cashflow := [Fin 0; Fin 0; Fin 0; Fin 0];
          total_debt := Fin 0;
          effective_tax_rate := Fin (1 # 4);
          balance_sheet := bs; income_stmt := inc; cashflow := cf |}.
Proof.
  intros Hf Hc1 Hc2 Hb1 Hb2 Hb3 Hi.
  apply (get_financial_data_Ok _ _ _ _ _ _ Hf). exists (Fin 0), (Fin (1 # 4)).
  split; [|split].
  - rewrite extract_total_debt_spec. unfold first_debt_row. by rewrite Hb1, Hb2, Hb3.
  - by apply extract_effective_tax_rate_absent.
  - by rewrite Hc1, Hc2.
Qed.

Lemma get_financial_data_defaults_witness :
  get_financial_data
    (fun _ => Ok {| tk_balance_sheet := Ok ∅; tk_financials := Ok ∅; tk_cashflow := Ok ∅ |})
    "NOSUCH"
  = Ok {| operating_cashflow := [Fin 0; Fin 0; Fin 0; Fin 0];
          total_debt := Fin 0;
          effective_tax_rate := Fin (1 # 4);
          balance_sheet := ∅; income_stmt := ∅; cashflow := ∅ |}.
Proof.
  apply (get_financial_data_defaults
           (fun _ => Ok {| tk_balance_sheet := Ok ∅; tk_financials := Ok ∅;
                           tk_cashflow := Ok ∅ |}) "NOSUCH" ∅ ∅ ∅).
  - eexists. split; reflexivity.
  - reflexivity.
  - reflexivity.
  - reflexivity.
  - reflexivity.
  - reflexivity.
  - left. reflexivity.
Defined.

(** ** The calculation of the application *)

Lemma percent_rate (p : Q) : 0 <= p -> 0 <= p / 100 /\ ~ 1 + p / 100 == 0.
Proof.
  intros Hp. assert (H : 0 <= p / 100) by (apply Qle_shift_div_l; lra).
  split; [exact H | lra].
Qed.

Lemma abs_power_le (b c : Q) (n : nat) :
  Qabs b <= c -> Qabs (b ^ Z.of_nat n) <= c ^ Z.of_nat n.
Proof.
  intros Hb. pose proof (Qabs_nonneg b) as H0.
  induction n as [|n IH]; [by vm_compute|].
  rewrite Qabs_power_succ. rewrite Nat2Z.inj_succ. unfold Z.succ.
  rewrite (Z.add_comm (Z.of_nat n) 1), Qpower_plus' by lia. rewrite Qpower_1_r.
  pose proof (Qabs_nonneg (b ^ Z.of_nat n)). nra.
Qed.

(** A rate between 0 and 100 percent keeps the powers of up to 1023 years
    within the range of a double: they lie between 1 and 2^1023. *)
Lemma percent_power_in_range (p : Q) (n : nat) :
  0 <= p -> p <= 100 -> (n <= 1023)%nat ->
  in_double_range ((1 + p / 100) ^ Z.of_nat n).
Proof.
  intros H0 H100 Hn. destruct (percent_rate p H0) as [Hr _].
  assert (H2 : p / 100 <= 1) by (apply Qle_shift_div_r; lra).
  destruct threshold_order as (_ & Hu & _).
  apply in_double_range_iff. split.
  - assert (1 <= Qabs ((1 + p / 100) ^ Z.of_nat n)); [|lra].
    apply abs_power_large. rewrite Qabs_pos; lra.
  - apply Qle_lt_trans with (2 ^ Z.of_nat n).
    + apply abs_power_le. rewrite Qabs_pos; lra.
    + apply Qle_lt_trans with (2 ^ 1023).
      * apply Qpower_le_compat_l; [lia | by vm_compute].
      * vm_compute. reflexivity.
Qed.

Lemma counted_le_length (cash_flows : list (option float)) :
  (counted cash_flows <= length cash_flows)%nat.
Proof.
  unfold counted. induction cash_flows as [|cf rest IH]; [done|].
  rewrite cleaned_series_cons. destruct (is_present cf); simpl; lia.
Qed.

Lemma calculate_npv_percent_reals (cash_flows : list (option float)) (p : Q) :
  0 <= p -> p <= 100 -> (length cash_flows <= 10)%nat ->
  in_double_range ((1 + p / 100) ^ Z.of_nat (counted cash_flows)).
Proof.
  intros H0 H100 Hn. apply percent_power_in_range; [done | done |].
  pose proof (counted_le_length cash_flows). lia.
Qed.

Lemma calculate_npv_percent_returns (cash_flows : list (option float)) (p : Q) :
  0 <= p -> p <= 100 -> (length cash_flows <= 10)%nat ->
  never_fails (calculate_npv cash_flows (Fin (p / 100))).
Proof.
  intros H0 H100 Hn. by apply calculate_npv_in_range, calculate_npv_percent_reals.
Qed.

Lemma calculate_tax_shield_percent_returns (debt tax_rate : float) (p : Q) :
  0 <= p ->
  never_fails (calculate_tax_shield (Some debt) (Some tax_rate) (Some (Fin (p / 100)))).
Proof.
  intros Hp. destruct (percent_rate p Hp) as [_ Hnz].
  destruct (calculate_tax_shield _ _ _) as [v|e] eqn:E; [by eexists|].
  apply calculate_tax_shield_raises in E as (_ & _ & _ & q & [= <-] & Hq).
  contradiction.
Qed.

Lemma cleaned_reals_entered (l : list Q) :
  Forall real_or_missing (map Some (map Fin l))
  /\ cleaned_reals (map Some (map Fin l)) = map Qabs l.
Proof.
  induction l as [|c l [IH1 IH2]]; [by split; [constructor|]|].
  split; [by constructor|].
  change (cleaned_reals (map Some (map Fin (c :: l))))
    with (Qabs c :: cleaned_reals (map Some (map Fin l))).
  by rewrite IH2.
Qed.

(** X19: With the sidebar within the bounds of its widgets the calculation of
    [main] never raises, with or without a snapshot, whatever the snapshot
    holds: the rates it passes on are at least zero, away from -1. *)
Theorem main_calculation_returns (financial_data : option FinancialSnapshot) (sb : Sidebar) :
  sidebar_in_bounds sb -> never_fails (main_calculation financial_data sb).
Proof.
  intros ([_ Hlen] & _ & _ & [Hd Hd'] & [Hc _]). unfold main_calculation.
  destruct (calculate_npv_percent_returns
              (map Some match financial_data with
                        | Some fd => firstn 5 (operating_cashflow fd)
                        | None => map Fin (sb_cash_flows sb)
                        end) _ Hd Hd') as [npv ->].
  { rewrite length_map. destruct financial_data as [fd|].
    - rewrite length_firstn. lia.
    - by rewrite length_map. }
  destruct (calculate_tax_shield_percent_returns
              match financial_data with
              | Some fd => total_debt fd
              | None => Fin (sb_debt sb)
              end (Fin (sb_tax_pct sb / 100)) _ Hc) as [ts ->].
  by eexists.
Qed.

(** The sidebar as [main] shows it first: five years of 1000, a tax rate
    of 25%, a debt of 1000, a discount rate of 10% and a cost of debt of
    5%. *)
Lemma default_sidebar_in_bounds :
  sidebar_in_bounds
    {| sb_cash_flows := [1000; 1000; 1000; 1000; 1000]; sb_tax_pct := 25;
       sb_debt := 1000; sb_discount_pct := 10; sb_cost_pct := 5 |}.
Proof.
  split; [simpl; lia|].
  repeat split; intros E; discriminate E.
Qed.

Lemma main_calculation_returns_witness :
  never_fails
    (main_calculation None
       {| sb_cash_flows := [1000; 1000; 1000; 1000; 1000]; sb_tax_pct := 25;
          sb_debt := 1000; sb_discount_pct := 10; sb_cost_pct := 5 |}).
Proof.
  apply (main_calculation_returns None _ default_sidebar_in_bounds).
Defined.

(** X20: Without a snapshot, the values [main] shows are reals: a net present
    value between zero and the sum of the magnitudes of the flows entered,
    a tax shield between zero and the debt times the tax rate, and their
    sum as the adjusted present value. *)
Theorem main_calculation_entered (sb : Sidebar) :
  sidebar_in_bounds sb ->
  exists val npv ts,
    main_calculation None sb = Ok val
    /\ v_npv val = Fin npv /\ v_tax_shield val = Fin ts /\ v_apv val = Fin (npv + ts)
    /\ (0 <= npv /\ npv <= Qsum (map Qabs (sb_cash_flows sb)))
    /\ (0 <= ts /\ ts <= sb_debt sb * (sb_tax_pct sb / 100)).
Proof.
  intros ([_ Hlen] & [Ht _] & Hdebt & [Hd Hd'] & [Hc _]).
  destruct (percent_rate _ Hd) as [Hr Hrnz].
  destruct (percent_rate _ Hc) as [Hk Hknz].
  destruct (percent_rate _ Ht) as [Htr _].
  destruct (cleaned_reals_entered (sb_cash_flows sb)) as [Hreal Hclean].
  destruct (calculate_npv_reals _ (sb_discount_pct sb / 100) Hreal)
    as (npv & Hnpv & Enpv).
  { apply calculate_npv_percent_reals; [done | done |]. by rewrite !length_map. }
  rewrite Hclean in Enpv.
  assert (Hnn : Forall (Qle 0) (map Qabs (sb_cash_flows sb))).
  { apply Forall_forall. intros q Hq. apply list_elem_of_In, in_map_iff in Hq.
    destruct Hq as (c & <- & _). apply Qabs_nonneg. }
  assert (Hts : exists ts,
             calculate_tax_shield (Some (Fin (sb_debt sb)))
               (Some (Fin (sb_tax_pct sb / 100))) (Some (Fin (sb_cost_pct sb / 100)))
             = Ok (Fin ts)
             /\ 0 <= ts /\ ts <= sb_debt sb * (sb_tax_pct sb / 100)).
  { assert (Hx : 0 <= sb_debt sb * (sb_tax_pct sb / 100))
      by (by apply Qmult_le_0_compat).
    destruct (Qeq_dec (sb_cost_pct sb / 100) 0) as [Hz|Hnz].
    - exists (sb_debt sb * (sb_tax_pct sb / 100)).
      split; [by apply calculate_tax_shield_zero_cost|].
      split; [exact Hx | apply Qle_refl].
    - destruct (calculate_tax_shield_cross (sb_debt sb) (sb_tax_pct sb / 100)
                  (sb_cost_pct sb / 100) Hnz Hknz) as (v & Hv & Ev).
      exists v. split; [exact Hv|].
      assert (0 < sb_cost_pct sb / 100)
        by (destruct (Qlt_le_dec 0 (sb_cost_pct sb / 100)); [done | lra]).
      set (x := sb_debt sb * (sb_tax_pct sb / 100)) in *.
      set (c := sb_cost_pct sb / 100) in *. split; nra. }
  destruct Hts as (ts & Hts & Hts0 & Hts1).
  eexists _, npv, ts. unfold main_calculation. rewrite Hnpv, Hts. cbn.
  split; [reflexivity|]. cbn [v_npv v_tax_shield v_apv].
  split; [done|]. split; [done|]. split; [done|]. split; [|by split].
  rewrite Enpv. split.
  - apply discounted_sum_nonneg; [lra | exact Hnn].
  - rewrite <- (discounted_sum_zero_rate _ 0) by reflexivity.
    apply discounted_sum_antitone; [exact Hnn | reflexivity | exact Hr].
Qed.

Lemma main_calculation_entered_witness :
  exists val npv ts,
    main_calculation None
      {| sb_cash_flows := [1000; 1000; 1000; 1000; 1000]; sb_tax_pct := 25;
         sb_debt := 1000; sb_discount_pct := 10; sb_cost_pct := 5 |} = Ok val
    /\ v_npv val = Fin npv /\ v_tax_shield val = Fin ts /\ v_apv val = Fin (npv + ts)
    /\ (0 <= npv /\ npv <= Qsum (map Qabs [1000; 1000; 1000; 1000; 1000]))
    /\ (0 <= ts /\ ts <= 1000 * (25 / 100)).
Proof.
  apply (main_calculation_entered _ default_sidebar_in_bounds).
Defined.

(** X21: The sweep [main] draws: when the adjusted present value is a real [a],
    the five values are 80%, 90%, 100%, 110% and 120% of it, against the
    five variations as written in the source. *)
Theorem main_calculation_sweep
    (financial_data : option FinancialSnapshot) (sb : Sidebar) (val : Valuation) (a : Q) :
  main_calculation financial_data sb = Ok val -> v_apv val = Fin a ->
  variations (v_sensitivity val) = main_variations
  /\ Forall2 real_value (values (v_sensitivity val))
       [a * (8 # 10); a * (9 # 10); a; a * (11 # 10); a * (12 # 10)].
Proof.
  unfold main_calculation.
  destruct (calculate_npv _ _) as [npv|]; [|discriminate].
  destruct (calculate_tax_shield _ _ _) as [ts|]; [|discriminate].
  cbn. intros [= <-]. cbn [v_apv v_sensitivity variations values]. intros ->.
  split; [reflexivity|].
  cbn [float_mul float_add].
  repeat (apply List.Forall2_cons; [unfold real_value; ring|]).
  apply List.Forall2_nil.
Qed.

Lemma main_calculation_sweep_witness :
  exists val a,
    main_calculation None
      {| sb_cash_flows := [110]; sb_tax_pct := 25; sb_debt := 0;
         sb_discount_pct := 10; sb_cost_pct := 0 |} = Ok val
    /\ v_apv val = Fin a
    /\ Forall2 real_value (values (v_sensitivity val))
         [a * (8 # 10); a * (9 # 10); a; a * (11 # 10); a * (12 # 10)].
Proof.
  eexists _, _. split; [reflexivity|]. split; [reflexivity|].
  exact (proj2 (main_calculation_sweep None
                  {| sb_cash_flows := [110]; sb_tax_pct := 25; sb_debt := 0;
                     sb_discount_pct := 10; sb_cost_pct := 0 |} _ _ eq_refl eq_refl)).
Defined.

Lemma discounted_sum_zeros (n : nat) (r : Q) :
  0 <= r -> discounted_sum (repeat 0 n) r == 0.
Proof.
  intros Hr. induction n as [|n IH]; [reflexivity|].
  cbn [repeat]. rewrite discounted_sum_cons by lra. rewrite IH. field. lra.
Qed.

(** X22: From the adapter to the application: when the cash-flow statement has
    neither of the two rows, the four zeros of the snapshot give a net
    present value of zero, whatever the sidebar holds within its bounds. *)
Theorem main_calculation_no_cash_flow_row
    yf_Ticker (ticker : string) (bs inc cf : DataFrame)
    (snap : FinancialSnapshot) (sb : Sidebar) :
  fetch_gives (yf_Ticker ticker) bs inc cf ->
  cf !! "Operating Cash Flow" = None ->
  cf !! "Total Cash From Operating Activities" = None ->
  get_financial_data yf_Ticker ticker = Ok snap ->
  sidebar_in_bounds sb ->
  exists val, main_calculation (Some snap) sb = Ok val /\ real_value (v_npv val) 0.
Proof.
  intros Hf Hc1 Hc2 Hsnap (_ & _ & _ & [Hd Hd'] & [Hc _]).
  apply (get_financial_data_Ok _ _ _ _ _ _ Hf) in Hsnap as (debt & rate & _ & _ & ->).
  rewrite Hc1, Hc2. destruct (percent_rate _ Hd) as [Hr Hrnz].
  destruct (calculate_npv_reals (map Some (firstn 5 [Fin 0; Fin 0; Fin 0; Fin 0]))
              (sb_discount_pct sb / 100)) as (npv & Hnpv & Enpv);
    [repeat constructor | apply calculate_npv_percent_reals; [done | done | simpl; lia] |].
  destruct (calculate_tax_shield_percent_returns debt (Fin (sb_tax_pct sb / 100)) _ Hc)
    as [ts Hts].
  eexists. unfold main_calculation. cbn [operating_cashflow total_debt].
  rewrite Hnpv, Hts. cbn. split; [reflexivity|]. cbn [v_npv real_value].
  rewrite Enpv.
  change (cleaned_reals (map Some (firstn 5 [Fin 0; Fin 0; Fin 0; Fin 0])))
    with (repeat (Qabs 0) 4).
  by apply (discounted_sum_zeros 4).
Qed.

Lemma main_calculation_no_cash_flow_row_witness :
  exists val,
    main_calculation
      (Some {| operating_cashflow := [Fin 0; Fin 0; Fin 0; Fin 0];
               total_debt := Fin 0;
               effective_tax_rate := Fin (1 # 4);
               balance_sheet := ∅; income_stmt := ∅; cashflow := ∅ |})
      {| sb_cash_flows := [1000; 1000; 1000; 1000; 1000]; sb_tax_pct := 25;
         sb_debt := 1000; sb_discount_pct := 10; sb_cost_pct := 5 |} = Ok val
    /\ real_value (v_npv val) 0.
Proof.
  apply (main_calculation_no_cash_flow_row
           (fun _ => Ok {| tk_balance_sheet := Ok ∅; tk_financials := Ok ∅;
                           tk_cashflow := Ok ∅ |}) "NOSUCH" ∅ ∅ ∅).
  - eexists. split; reflexivity.
  - reflexivity.
  - reflexivity.
  - reflexivity.
  - exact default_sidebar_in_bounds.
Defined.
